(** * translator-linebot: the webhook handler of [lambda_function.py]

    A shallow embedding of [TranslationService.translate_text],
    [process_message_event] and [lambda_handler], with the Python built-ins
    they rely on ([str.strip], [str.lower], [str.replace], [in],
    subscripting, [json.dumps]) and the external collaborators (LINE SDK,
    Bedrock runtime) as an explicit record of oracles. *)

From Stdlib Require Import List NArith Bool Arith Lia String Ascii.
Import ListNotations.

Set Implicit Arguments.

(** ** Python strings *)

Module PyStr.

(** A Python [str] is a sequence of Unicode code points. *)
Definition pystr := list N.

(** An ASCII literal of the source, as a [pystr]. *)
Definition py (s : string) : pystr :=
  map N_of_ascii (list_ascii_of_string s).

Definition NL : pystr := [10%N].

Fixpoint eqb (a b : pystr) : bool :=
  match a, b with
  | [], [] => true
  | x :: a', y :: b' => N.eqb x y && eqb a' b'
  | _, _ => false
  end.

(** [s.startswith(p)] *)
Fixpoint is_prefix (p s : pystr) : bool :=
  match p, s with
  | [], _ => true
  | _ :: _, [] => false
  | x :: p', y :: s' => N.eqb x y && is_prefix p' s'
  end.

(** [sub in s] *)
Fixpoint contains (sub s : pystr) : bool :=
  is_prefix sub s ||
  match s with
  | [] => false
  | _ :: s' => contains sub s'
  end.

(** [str.isspace] on one code point: the code points CPython's
    [Py_UNICODE_ISSPACE] accepts. *)
Definition isspace (c : N) : bool :=
  ((9 <=? c) && (c <=? 13) || (28 <=? c) && (c <=? 32) ||
   (c =? 133) || (c =? 160) || (c =? 5760) ||
   (8192 <=? c) && (c <=? 8202) || (c =? 8232) || (c =? 8233) ||
   (c =? 8239) || (c =? 8287) || (c =? 12288))%N.

Fixpoint lstrip (s : pystr) : pystr :=
  match s with
  | [] => []
  | c :: s' => if isspace c then lstrip s' else s
  end.

Definition rstrip (s : pystr) : pystr := rev (lstrip (rev s)).

(** [s.strip()] *)
Definition strip (s : pystr) : pystr := rstrip (lstrip s).

(** [s.replace(old, "")]: occurrences of [old] are found left to right and
    do not overlap.  [skip] counts the code points of a match still to be
    dropped. *)
Fixpoint remove_go (old : pystr) (skip : nat) (s : pystr) : pystr :=
  match s with
  | [] => []
  | c :: s' =>
      match skip with
      | S k => remove_go old k s'
      | O => if is_prefix old s
             then remove_go old (Nat.pred (List.length old)) s'
             else c :: remove_go old 0 s'
      end
  end.

Definition remove (old s : pystr) : pystr :=
  match old with
  | [] => s
  | _ :: _ => remove_go old 0 s
  end.

(** Lower-casing of an ASCII code point. *)
Definition ascii_lower (c : N) : N :=
  if ((65 <=? c) && (c <=? 90))%N then (c + 32)%N else c.

Section Lower.
(** The Unicode lower-casing of a code point outside ASCII: it may yield
    several code points and, for capital sigma, depends on the position
    in the whole string. *)
Variable unicode_lower : pystr -> nat -> N -> pystr.

Fixpoint lower_go (whole : pystr) (i : nat) (s : pystr) : pystr :=
  match s with
  | [] => []
  | c :: s' =>
      (if (c <? 128)%N then [ascii_lower c] else unicode_lower whole i c)
        ++ lower_go whole (S i) s'
  end.

(** [s.lower()] *)
Definition lower (s : pystr) : pystr := lower_go s 0 s.
End Lower.

(** Truth value of a string: [if s:] *)
Definition truthy (s : pystr) : bool :=
  match s with [] => false | _ :: _ => true end.

End PyStr.
Import PyStr.

(** ** JSON values, subscripting and [json.dumps] *)

Module Json.

(** A decoded JSON document, which is also the shape of the Lambda event
    (a [dict] with string keys, as an association list; lookups take the
    first binding of a key). *)
#[warnings="-register-all"]
Inductive json : Type :=
| JNull
| JBool (b : bool)
| JNumber (literal : pystr)
| JStr (s : pystr)
| JArr (items : list json)
| JObj (fields : list (pystr * json)).

(** The exceptions the handler can meet.  All of them derive from
    [Exception]. *)
Inductive exn : Type :=
| KeyError
| TypeError
| IndexError
| AttributeError
| InvalidSignatureError
| CollaboratorError (what : pystr).

Definition is_invalid_signature (e : exn) : bool :=
  match e with InvalidSignatureError => true | _ => false end.

(** The outcome of evaluating a Python expression. *)
Inductive outcome (A : Type) : Type :=
| Return (a : A)
| Raise (e : exn).
Arguments Raise {A} e.

Fixpoint assoc (k : pystr) (fields : list (pystr * json)) : option json :=
  match fields with
  | [] => None
  | (k', v) :: rest => if PyStr.eqb k k' then Some v else assoc k rest
  end.

(** [obj[key]] for a string [key]. *)
Definition getitem (obj : json) (key : pystr) : outcome json :=
  match obj with
  | JObj fields =>
      match assoc key fields with
      | Some v => Return v
      | None => Raise KeyError
      end
  | _ => Raise TypeError
  end.

(** [obj[0]] *)
Definition getitem0 (obj : json) : outcome json :=
  match obj with
  | JArr (x :: _) => Return x
  | JArr [] => Raise IndexError
  | JStr (c :: _) => Return (JStr [c])
  | JStr [] => Raise IndexError
  | JObj _ => Raise KeyError
  | _ => Raise TypeError
  end.

(** [obj.strip()] *)
Definition strip_method (obj : json) : outcome pystr :=
  match obj with
  | JStr s => Return (strip s)
  | _ => Raise AttributeError
  end.

Definition hexdigit (d : N) : N :=
  (if d <? 10 then 48 + d else 87 + d)%N.

(** ['\\u{0:04x}'.format(n)] *)
Definition u_escape (n : N) : pystr :=
  [92; 117]%N ++
  map hexdigit [(n / 4096) mod 16; (n / 256) mod 16; (n / 16) mod 16; n mod 16]%N.

(** One code point under [json.dumps] with [ensure_ascii=True]. *)
Definition escape_char (c : N) : pystr :=
  (if c =? 34 then [92; 34]
   else if c =? 92 then [92; 92]
   else if c =? 10 then [92; 110]
   else if c =? 13 then [92; 114]
   else if c =? 9 then [92; 116]
   else if c =? 8 then [92; 98]
   else if c =? 12 then [92; 102]
   else if (32 <=? c) && (c <=? 126) then [c]
   else if c <? 65536 then u_escape c
   else
     let n := c - 65536 in
     u_escape (N.lor 55296 (N.land (N.shiftr n 10) 1023))
       ++ u_escape (N.lor 56320 (N.land n 1023)))%N.

Definition dumps_str (s : pystr) : pystr :=
  [34%N] ++ flat_map escape_char s ++ [34%N].

(** [json.dumps(j)] with the default separators. *)
Fixpoint dumps (j : json) : pystr :=
  match j with
  | JNull => py "null"
  | JBool true => py "true"
  | JBool false => py "false"
  | JNumber literal => literal
  | JStr s => dumps_str s
  | JArr items =>
      py "[" ++
      (fix go (l : list json) : pystr :=
         match l with
         | [] => []
         | [x] => dumps x
         | x :: l' => dumps x ++ py ", " ++ go l'
         end) items ++ py "]"
  | JObj fields =>
      py "{" ++
      (fix go (l : list (pystr * json)) : pystr :=
         match l with
         | [] => []
         | [(k, v)] => dumps_str k ++ py ": " ++ dumps v
         | (k, v) :: l' => dumps_str k ++ py ": " ++ dumps v ++ py ", " ++ go l'
         end) fields ++ py "}"
  end.

End Json.
Import Json.

(** ** Effects: collaborator calls, logging and exceptions *)

Module Effects.

Definition bytes := list N.

(** A call that leaves the process. *)
Inductive call : Type :=
| CallParse (body signature : json)
| CallGetProfile (user_id : pystr)
| CallInvokeModel (model_id : option pystr) (body content_type : pystr)
| CallReply (reply_token text : pystr).

Inductive log_msg : Type :=
| MsgEvent (event : json)
| MsgText (text : pystr)
| MsgTranslating (source_lang target_lang text : pystr)
| MsgTranslationFailed (e : exn)
| MsgProcessingError (e : exn).

Inductive log_entry : Type :=
| LogInfo (m : log_msg)
| LogError (m : log_msg).

(** What one invocation has done so far, oldest first. *)
Record world : Type := { calls : list call; logs : list log_entry }.

Definition initial : world := {| calls := []; logs := [] |}.

(** A computation: it may raise, and what it did before raising stays
    done. *)
Definition M (A : Type) : Type := world -> outcome A * world.

Definition ret {A} (a : A) : M A := fun w => (Return a, w).

Definition bind {A B} (m : M A) (k : A -> M B) : M B :=
  fun w =>
    match m w with
    | (Return a, w') => k a w'
    | (Raise e, w') => (Raise e, w')
    end.

Definition lift {A} (o : outcome A) : M A := fun w => (o, w).

Definition logged (w : world) (l : log_entry) : world :=
  {| calls := calls w; logs := logs w ++ [l] |}.

Definition called (w : world) (c : call) : world :=
  {| calls := calls w ++ [c]; logs := logs w |}.

Definition log (l : log_entry) : M unit :=
  fun w => (Return tt, logged w l).

(** A collaborator call: its answer may depend on the calls made before. *)
Definition perform {A} (c : call) (answer : list call -> outcome A) : M A :=
  fun w => (answer (calls w), called w c).

(** [try: m except E as e: h e], for the exceptions [E] selects. *)
Definition try_except {A} (m : M A) (E : exn -> bool) (h : exn -> M A) : M A :=
  fun w =>
    match m w with
    | (Return a, w') => (Return a, w')
    | (Raise e, w') => if E e then h e w' else (Raise e, w')
    end.

(** [except Exception] *)
Definition Exception (e : exn) : bool := true.

Fixpoint for_each {A} (l : list A) (f : A -> M unit) : M unit :=
  match l with
  | [] => ret tt
  | x :: l' => bind (f x) (fun _ => for_each l' f)
  end.

End Effects.
Import Effects.

Declare Scope py_scope.
Delimit Scope py_scope with py.
Notation "x <- m ;; k" := (bind m (fun x => k))
  (at level 61, m at next level, right associativity) : py_scope.
Notation "m ;; k" := (bind m (fun _ => k))
  (at level 61, right associativity) : py_scope.
Local Open Scope py_scope.

(** ** The LINE SDK's data *)

Module Line.

Inductive Message : Type :=
| TextMessage (text : pystr)
| OtherMessage.

(** [linebot.models.MessageEvent], with [source.user_id] flattened. *)
Record MessageEvent : Type :=
  { reply_token : pystr; user_id : pystr; message : Message }.

Inductive webhook_event : Type :=
| EvMessage (e : MessageEvent)
| EvOther.

Inductive LineBotApi : Type := MkLineBotApi (channel_access_token : pystr).
Inductive WebhookHandler : Type := MkWebhookHandler (channel_secret : pystr).

End Line.
Import Line.

(** The world outside the process. *)
Record collaborators : Type :=
  { (** [WebhookParser.parse]: checks the signature, then decodes the events *)
    parse : list call -> json -> json -> outcome (list webhook_event);
    (** [line_bot_api.get_profile(user_id).display_name] *)
    get_profile : list call -> pystr -> outcome pystr;
    (** [bedrock_client.invoke_model(...)]; the answer is what
        [response["body"].read()] then does *)
    invoke_model :
      list call -> option pystr -> pystr -> pystr -> outcome (outcome bytes);
    (** [json.loads] *)
    json_loads : bytes -> outcome json;
    (** [line_bot_api.reply_message] *)
    reply_message : list call -> pystr -> pystr -> outcome unit }.

(** ** The program *)

(** The environment variables read at module level. *)
Record config : Type :=
  { CHANNEL_ACCESS_TOKEN : option pystr;
    CHANNEL_SECRET : option pystr;
    BEDROCK_REGION : option pystr;
    BEDROCK_MODEL_ID : option pystr }.

(** [X(v) if v else None] *)
Definition if_set {A} (make : pystr -> A) (v : option pystr) : option A :=
  match v with
  | Some s => if truthy s then Some (make s) else None
  | None => None
  end.

Definition line_bot_api (cfg : config) : option LineBotApi :=
  if_set MkLineBotApi (CHANNEL_ACCESS_TOKEN cfg).

Definition handler (cfg : config) : option WebhookHandler :=
  if_set MkWebhookHandler (CHANNEL_SECRET cfg).

(** [str(x)] inside an f-string, for a value that is a [str] or [None]. *)
Definition format_value (x : option pystr) : pystr :=
  match x with
  | Some s => s
  | None => py "None"
  end.

(** The interface [process_message_event] uses of its
    [translation_service] argument. *)
Record TranslationService_t : Type :=
  { translate_text_of : pystr -> pystr -> pystr -> M (option pystr) }.

Definition HTTP_response : Type := (N * pystr)%type.
Definition statusCode (r : HTTP_response) : N := fst r.
Definition body_of (r : HTTP_response) : pystr := snd r.

Definition config_error_message : pystr :=
  py "LINE Bot not properly configured. Check environment variables.".

Definition invalid_signature_message : pystr :=
  py "Invalid signature. Please check your channel access token channel secret.".

Definition marker_e2j : pystr := py "#e2j".
Definition marker_j2e : pystr := py "#j2e".

(** The prompt of lines 41-44. *)
Definition prompt_for (text target_lang : pystr) : pystr :=
  if PyStr.eqb target_lang (py "en")
  then py "Translate the following text to English. Only provide the translation, no explanations:"
         ++ NL ++ NL ++ text
  else py "Translate the following text to Japanese. Only provide the translation, no explanations:"
         ++ NL ++ NL ++ text.

(** The request body of line 46. *)
Definition request_body (prompt : pystr) : json :=
  JObj [(py "messages",
         JArr [JObj [(py "role", JStr (py "user"));
                     (py "content", JArr [JObj [(py "text", JStr prompt)]])]])].

(** The [invoke_model] call of lines 48-52. *)
Definition model_request (cfg : config) (body : json) : call :=
  CallInvokeModel (BEDROCK_MODEL_ID cfg) (dumps body) (py "application/json").

Section Program.
Variable unicode_lower : pystr -> nat -> N -> pystr.
Variable env : collaborators.
Variable cfg : config.

(** [TranslationService.translate_text] (lines 35-63) *)
Definition translate_text (text source_lang target_lang : pystr)
  : M (option pystr) :=
  try_except
    (let prompt := prompt_for text target_lang in
     let body := request_body prompt in
     response_body_stream <-
       perform (model_request cfg body)
               (fun h => invoke_model env h (BEDROCK_MODEL_ID cfg) (dumps body)
                                      (py "application/json")) ;;
     raw <- lift response_body_stream ;;
     response_body <- lift (json_loads env raw) ;;
     output <- lift (getitem response_body (py "output")) ;;
     msg <- lift (getitem output (py "message")) ;;
     content <- lift (getitem msg (py "content")) ;;
     first <- lift (getitem0 content) ;;
     text_field <- lift (getitem first (py "text")) ;;
     translated_text <- lift (strip_method text_field) ;;
     ret (Some translated_text))
    Exception
    (fun e => log (LogError (MsgTranslationFailed e)) ;; ret None).

(** [TranslationService(bedrock_client)] *)
Definition TranslationService : TranslationService_t :=
  {| translate_text_of := translate_text |}.

(** The trigger check of [process_message_event] (lines 86-102) on the
    stripped message text: [Some (text_to_translate, source_lang,
    target_lang)], or [None] for the [else: return None] branch. *)
Definition resolve_trigger (message_text : pystr)
  : option (pystr * pystr * pystr) :=
  if contains marker_e2j (lower unicode_lower message_text) then
    Some (strip (remove (py "#E2J") (remove (py "#e2j") message_text)),
          py "en", py "ja")
  else if contains marker_j2e (lower unicode_lower message_text) then
    Some (strip (remove (py "#J2E") (remove (py "#j2e") message_text)),
          py "ja", py "en")
  else None.

(** The reply of line 114. *)
Definition compose_reply (user_display_name source_lang target_lang : pystr)
    (translated_text : option pystr) : pystr :=
  py "Message from @" ++ user_display_name ++ py ": (" ++ source_lang
    ++ py " -> " ++ target_lang ++ py "):" ++ NL
    ++ py "--------------------" ++ NL ++ format_value translated_text.

(** [process_message_event] (lines 66-120) *)
Definition process_message_event (event : MessageEvent)
    (translation_service : TranslationService_t) : M (option pystr) :=
  try_except
    (match message event with
     | OtherMessage => ret None
     | TextMessage text =>
         match line_bot_api cfg with
         | None =>
             log (LogError (MsgText (py "LINE Bot API not initialized"))) ;;
             ret (Some (py "Bot configuration error"))
         | Some _ =>
             user_display_name <-
               perform (CallGetProfile (user_id event))
                       (fun h => get_profile env h (user_id event)) ;;
             let message_text := strip text in
             match resolve_trigger message_text with
             | None => ret None
             | Some (text_to_translate, source_lang, target_lang) =>
                 if truthy text_to_translate then
                   log (LogInfo (MsgTranslating source_lang target_lang
                                                text_to_translate)) ;;
                   translated_text <-
                     translate_text_of translation_service
                       text_to_translate source_lang target_lang ;;
                   ret (Some (compose_reply user_display_name source_lang
                                            target_lang translated_text))
                 else ret None
             end
         end
     end)
    Exception
    (fun e =>
       log (LogError (MsgProcessingError e)) ;;
       ret (Some (py "An error occurred while processing your message."))).

(** The callback [handle_message] registered in [lambda_handler]
    (lines 139-152). *)
Definition handle_message (translation_service : TranslationService_t)
    (event : MessageEvent) : M unit :=
  reply_text <- process_message_event event translation_service ;;
  match reply_text with
  | Some text =>
      if truthy text then
        perform (CallReply (reply_token event) text)
                (fun h => reply_message env h (reply_token event) text)
      else ret tt
  | None => ret tt
  end.

(** [handler.handle(body, signature)] of the SDK, with one callback
    registered for text message events: the parser checks the signature
    and decodes the events, and each text message event goes to the
    callback; the other events have no handler. *)
Definition handle (body signature : json) (callback : MessageEvent -> M unit)
  : M unit :=
  events <- perform (CallParse body signature)
                    (fun h => parse env h body signature) ;;
  for_each events
    (fun ev =>
       match ev with
       | EvMessage e =>
           match message e with
           | TextMessage _ => callback e
           | OtherMessage => ret tt
           end
       | EvOther => ret tt
       end).

(** [lambda_handler] (lines 123-167) *)
Definition lambda_handler (event : json) : M HTTP_response :=
  log (LogInfo (MsgEvent event)) ;;
  match line_bot_api cfg, handler cfg with
  | Some _, Some _ =>
      headers <- lift (getitem event (py "headers")) ;;
      signature <- lift (getitem headers (py "x-line-signature")) ;;
      body <- lift (getitem event (py "body")) ;;
      let translation_service := TranslationService in
      let response := (200%N, dumps (JStr (py "OK"))) in
      try_except
        (handle body signature (handle_message translation_service) ;;
         ret response)
        is_invalid_signature
        (fun _ =>
           let error_message := invalid_signature_message in
           log (LogError (MsgText error_message)) ;;
           ret (502%N, dumps (JStr error_message)))
  | _, _ =>
      let error_message := config_error_message in
      log (LogError (MsgText error_message)) ;;
      ret (500%N, dumps (JStr error_message))
  end.
End Program.

(** ** Notions the properties are stated with *)

(** The code points of the two markers: [#], [2], [e], [j]. *)
Definition marker_char (c : N) : bool :=
  ((c =? 35) || (c =? 50) || (c =? 101) || (c =? 106))%N.

(** What the Unicode tables guarantee about lower-casing outside ASCII, as
    far as the markers are concerned: a code point never vanishes and never
    turns into a code point of a marker. *)
Definition lower_keeps_markers (unicode_lower : pystr -> nat -> N -> pystr)
  : Prop :=
  forall whole i c,
    (128 <= c)%N ->
    unicode_lower whole i c <> [] /\
    forallb (fun x => negb (marker_char x)) (unicode_lower whole i c) = true.

Definition and_then {A B} (o : outcome A) (k : A -> outcome B) : outcome B :=
  match o with
  | Return a => k a
  | Raise e => Raise e
  end.

(** The value at [output.message.content[0].text] of a decoded response. *)
Definition text_at_path (j : json) : outcome json :=
  and_then (getitem j (py "output")) (fun output =>
  and_then (getitem output (py "message")) (fun msg =>
  and_then (getitem msg (py "content")) (fun content =>
  and_then (getitem0 content) (fun first =>
  getitem first (py "text"))))).

(** What the model endpoint delivers for a request body after [history]:
    the string at the path of the decoded response, trimmed, when the call,
    the read, the decoding and the path all succeed. *)
Definition delivered (env : collaborators) (cfg : config)
    (history : list call) (body : json) : outcome pystr :=
  and_then (invoke_model env history (BEDROCK_MODEL_ID cfg) (dumps body)
                         (py "application/json")) (fun stream =>
  and_then stream (fun raw =>
  and_then (json_loads env raw) (fun j =>
  and_then (text_at_path j) strip_method))).

(** ** Concrete scenarios *)

Module Scenario.

Definition identity_lower : pystr -> nat -> N -> pystr := fun _ _ c => [c].

Definition konnichiwa : pystr := [12371; 12435; 12395; 12385; 12399]%N.

Definition configured : config :=
  {| CHANNEL_ACCESS_TOKEN := Some (py "token");
     CHANNEL_SECRET := Some (py "secret");
     BEDROCK_REGION := Some (py "ap-northeast-1");
     BEDROCK_MODEL_ID := Some (py "apac.amazon.nova-pro-v1:0") |}.

Definition without_model : config :=
  {| CHANNEL_ACCESS_TOKEN := Some (py "token");
     CHANNEL_SECRET := Some (py "secret");
     BEDROCK_REGION := None;
     BEDROCK_MODEL_ID := None |}.

Definition without_token : config :=
  {| CHANNEL_ACCESS_TOKEN := None;
     CHANNEL_SECRET := Some (py "secret");
     BEDROCK_REGION := Some (py "ap-northeast-1");
     BEDROCK_MODEL_ID := Some (py "apac.amazon.nova-pro-v1:0") |}.

Definition signed_event : json :=
  JObj [(py "headers", JObj [(py "x-line-signature", JStr (py "c2ln"))]);
        (py "body", JStr (py "{}"))].

(** The header under the capitalisation a gateway may deliver. *)
Definition capitalised_event : json :=
  JObj [(py "headers", JObj [(py "X-Line-Signature", JStr (py "c2ln"))]);
        (py "body", JStr (py "{}"))].

Definition text_event (text : pystr) : MessageEvent :=
  {| reply_token := py "r1"; user_id := py "U1";
     message := TextMessage text |}.

Definition model_response (text : pystr) : json :=
  JObj [(py "output",
         JObj [(py "message",
                JObj [(py "content", JArr [JObj [(py "text", JStr text)]])])])].

(** Bob writes [events]; the model answers [answer]. *)
Definition bob (events : list webhook_event) (answer : outcome json)
  : collaborators :=
  {| parse := fun _ _ _ => Return events;
     get_profile := fun _ _ => Return (py "Bob");
     invoke_model := fun _ _ _ _ => Return (Return []);
     json_loads := fun _ => answer;
     reply_message := fun _ _ _ => Return tt |}.

(** A request whose signature the parser rejects. *)
Definition forged : collaborators :=
  {| parse := fun _ _ _ => Raise InvalidSignatureError;
     get_profile := fun _ _ => Return (py "Bob");
     invoke_model := fun _ _ _ _ => Return (Return []);
     json_loads := fun _ => Return JNull;
     reply_message := fun _ _ _ => Return tt |}.

(** A profile lookup that fails. *)
Definition stranger : collaborators :=
  {| parse := fun _ _ _ => Return [];
     get_profile := fun _ _ => Raise (CollaboratorError (py "LineBotApiError"));
     invoke_model := fun _ _ _ _ => Return (Return []);
     json_loads := fun _ => Return JNull;
     reply_message := fun _ _ _ => Return tt |}.

End Scenario.

(** ** Notions of the further properties *)

(** Whether [handler.handle] passes an event to the registered callback. *)
Definition is_text_event (ev : webhook_event) : bool :=
  match ev with
  | EvMessage e =>
      match message e with
      | TextMessage _ => true
      | OtherMessage => false
      end
  | EvOther => false
  end.

(** What [handler.handle] does with one decoded event, given the callback
    registered for text message events. *)
Definition dispatch (callback : MessageEvent -> M unit) (ev : webhook_event)
  : M unit :=
  match ev with
  | EvMessage e =>
      match message e with
      | TextMessage _ => callback e
      | OtherMessage => ret tt
      end
  | EvOther => ret tt
  end.

(** The reply of line 120. *)
Definition error_reply : pystr :=
  py "An error occurred while processing your message.".

(** [w'] is [w] with further calls and log entries. *)
Definition extends (w w' : world) : Prop :=
  (exists cs, calls w' = calls w ++ cs) /\
  (exists ls, logs w' = logs w ++ ls).

(** A computation that only adds to what has been done. *)
Definition grows {A} (m : M A) : Prop :=
  forall w, extends w (snd (m w)).

(** The language pairs the trigger check can yield. *)
Definition language_pair (source_lang target_lang : pystr) : Prop :=
  (source_lang = py "en" /\ target_lang = py "ja") \/
  (source_lang = py "ja" /\ target_lang = py "en").

Module Cases.

(** An event without a body. *)
Definition bodiless_event : json :=
  JObj [(py "headers", JObj [(py "x-line-signature", JStr (py "c2ln"))])].

(** Bob writes [events]; the model answers, but the reply token has
    expired. *)
Definition expired (events : list webhook_event) : collaborators :=
  {| parse := fun _ _ _ => Return events;
     get_profile := fun _ _ => Return (py "Bob");
     invoke_model := fun _ _ _ _ => Return (Return []);
     json_loads := fun _ => Return (Scenario.model_response (py "Hello"));
     reply_message :=
       fun _ _ _ => Raise (CollaboratorError (py "LineBotApiError")) |}.

Definition sticker_event : MessageEvent :=
  {| reply_token := py "r2"; user_id := py "U1"; message := OtherMessage |}.

End Cases.

(** * Properties *)

(** ** Sample runs of the built-ins *)

Example strip_example :
  strip (py "  #e2j hi " ++ NL) = py "#e2j hi".
Proof. reflexivity. Qed.

Example remove_example :
  remove (py "#E2J") (remove (py "#e2j") (py "#e2j#E2J only markers"))
  = py " only markers".
Proof. reflexivity. Qed.

Example remove_overlap : remove (py "aa") (py "aaa") = py "a".
Proof. reflexivity. Qed.

Example lower_example :
  lower Scenario.identity_lower (py "Hello #E2J") = py "hello #e2j".
Proof. reflexivity. Qed.

Example dumps_ok : dumps (JStr (py "OK")) = [34; 79; 75; 34]%N.
Proof. reflexivity. Qed.

Example dumps_nested :
  dumps (JObj [(py "a", JArr [JStr [12371%N]; JNull])])
  = [123; 34; 97; 34; 58; 32; 91; 34; 92; 117; 51; 48; 53; 51; 34; 44; 32;
     110; 117; 108; 108; 93; 125]%N.
Proof. reflexivity. Qed.

Example resolve_hello :
  resolve_trigger Scenario.identity_lower (strip (py "Hello #E2J"))
  = Some (py "Hello", py "en", py "ja").
Proof. reflexivity. Qed.

Example resolve_only_markers :
  resolve_trigger Scenario.identity_lower (strip (py "#e2j#E2J only markers"))
  = Some (py "only markers", py "en", py "ja").
Proof. reflexivity. Qed.

(** ** Facts about the string built-ins *)

Section StringFacts.

Lemma is_prefix_iff (p s : pystr) :
  is_prefix p s = true <-> exists b, s = p ++ b.
Proof.
  revert s; induction p as [|x p IH]; intros s; simpl.
  - split; [intros _; now exists s | reflexivity].
  - destruct s as [|y s].
    + split; [discriminate | intros [b H]; discriminate].
    + rewrite andb_true_iff, N.eqb_eq, IH. split.
      * intros [-> [b ->]]. now exists b.
      * intros [b H]. injection H as -> ->. split; [reflexivity | now exists b].
Qed.

Lemma contains_iff (sub s : pystr) :
  contains sub s = true <-> exists a b, s = a ++ sub ++ b.
Proof.
  induction s as [|c s IH]; simpl.
  - rewrite orb_false_r, is_prefix_iff. split.
    + intros [b H]. now exists [], b.
    + intros [[|x a] [b H]]; [now exists b | discriminate].
  - rewrite orb_true_iff, is_prefix_iff, IH. split.
    + intros [[b H] | [a [b H]]].
      * now exists [], b.
      * exists (c :: a), b. simpl. now rewrite H.
    + intros [[|x a] [b H]]; simpl in H.
      * left. now exists b.
      * right. injection H as _ ->. now exists a, b.
Qed.

Lemma contains_inside (sub a s b : pystr) :
  contains sub s = true -> contains sub (a ++ s ++ b) = true.
Proof.
  rewrite !contains_iff. intros [x [y ->]].
  exists (a ++ x), (y ++ b). now rewrite <- !app_assoc.
Qed.

Lemma contains_map (f : N -> N) (sub s : pystr) :
  contains sub s = true -> contains (map f sub) (map f s) = true.
Proof.
  rewrite !contains_iff. intros [x [y ->]].
  exists (map f x), (map f y). now rewrite !map_app.
Qed.

Lemma contains_rev (sub s : pystr) :
  contains sub s = true -> contains (rev sub) (rev s) = true.
Proof.
  rewrite !contains_iff. intros [x [y ->]].
  exists (rev y), (rev x). now rewrite !rev_app_distr, <- app_assoc.
Qed.

(** A match cannot start at a code point the pattern does not start
    with. *)
Lemma contains_skip (m c : N) (sub s : pystr) :
  m <> c -> contains (m :: sub) (c :: s) = contains (m :: sub) s.
Proof.
  intros Hne. cbn [contains is_prefix].
  destruct (N.eqb_spec m c) as [->|_]; [contradiction | reflexivity].
Qed.

Lemma lstrip_suffix (s : pystr) : exists a, s = a ++ lstrip s.
Proof.
  induction s as [|c s [a IH]]; simpl.
  - now exists [].
  - destruct (isspace c).
    + exists (c :: a). simpl. now rewrite <- IH.
    + now exists [].
Qed.

Lemma rstrip_prefix (s : pystr) : exists b, s = rstrip s ++ b.
Proof.
  unfold rstrip. destruct (lstrip_suffix (rev s)) as [a H].
  exists (rev a). rewrite <- rev_app_distr, <- H. now rewrite rev_involutive.
Qed.

Lemma strip_inside (s : pystr) : exists a b, s = a ++ strip s ++ b.
Proof.
  unfold strip. destruct (lstrip_suffix s) as [a Ha].
  destruct (rstrip_prefix (lstrip s)) as [b Hb].
  exists a, b. now rewrite <- Hb.
Qed.

Lemma contains_lstrip (m : N) (sub s : pystr) :
  isspace m = false ->
  contains (m :: sub) s = true -> contains (m :: sub) (lstrip s) = true.
Proof.
  intros Hm. induction s as [|c s IH]; [trivial|].
  intros H. simpl lstrip. destruct (isspace c) eqn:Hc; [|exact H].
  apply IH. rewrite contains_skip in H; [exact H | congruence].
Qed.

Lemma contains_rstrip (m : N) (sub' sub s : pystr) :
  rev sub = m :: sub' -> isspace m = false ->
  contains sub s = true -> contains sub (rstrip s) = true.
Proof.
  intros Hrev Hm H. apply contains_rev in H. rewrite Hrev in H.
  apply contains_lstrip in H; [|exact Hm].
  apply contains_rev in H. rewrite <- Hrev, rev_involutive in H. exact H.
Qed.

(** Trimming keeps every occurrence of a pattern that neither starts nor
    ends with white space. *)
Lemma contains_strip (m l : N) (sub sub' s : pystr) :
  isspace m = false -> isspace l = false ->
  rev (m :: sub) = l :: sub' ->
  contains (m :: sub) s = true -> contains (m :: sub) (strip s) = true.
Proof.
  intros Hm Hl Hrev H. unfold strip.
  eapply contains_rstrip; [exact Hrev | exact Hl |].
  now apply contains_lstrip.
Qed.

(** ... and never creates one. *)
Lemma contains_strip_back (f : N -> N) (sub s : pystr) :
  contains sub (map f (strip s)) = true -> contains sub (map f s) = true.
Proof.
  intros H. destruct (strip_inside s) as [a [b Hs]].
  rewrite Hs at 1. rewrite !map_app. now apply contains_inside.
Qed.

Variable unicode_lower : pystr -> nat -> N -> pystr.

Lemma lower_go_app (whole : pystr) (i : nat) (a b : pystr) :
  lower_go unicode_lower whole i (a ++ b)
  = lower_go unicode_lower whole i a
      ++ lower_go unicode_lower whole (i + List.length a) b.
Proof.
  revert i; induction a as [|c a IH]; intros i; simpl.
  - now rewrite Nat.add_0_r.
  - rewrite IH, <- app_assoc. now rewrite Nat.add_succ_r.
Qed.

Lemma lower_go_ascii (whole : pystr) (i : nat) (s : pystr) :
  forallb (fun c => (c <? 128)%N) s = true ->
  lower_go unicode_lower whole i s = map ascii_lower s.
Proof.
  revert i; induction s as [|c s IH]; intros i H; simpl in *; [reflexivity|].
  apply andb_true_iff in H as [Hc Hs]. now rewrite Hc, IH.
Qed.

(** A pattern of lower-case ASCII found in [s] is found in [s.lower()]. *)
Lemma contains_lower (sub s : pystr) :
  forallb (fun c => (c <? 128)%N) sub = true ->
  map ascii_lower sub = sub ->
  contains sub s = true -> contains sub (lower unicode_lower s) = true.
Proof.
  intros Hascii Hfix H. apply contains_iff in H as [a [b Hs]].
  unfold lower. rewrite Hs at 2. rewrite !lower_go_app.
  rewrite (lower_go_ascii _ _ _ Hascii), Hfix.
  apply contains_iff. eauto.
Qed.

Hypothesis tables : lower_keeps_markers unicode_lower.

Lemma marker_char_ascii (c : N) : marker_char c = true -> (c <? 128)%N = true.
Proof.
  unfold marker_char. rewrite !orb_true_iff, !N.eqb_eq, N.ltb_lt. lia.
Qed.

Lemma is_prefix_lower_go (sub : pystr) :
  forallb marker_char sub = true ->
  forall whole i s,
    is_prefix sub (lower_go unicode_lower whole i s)
    = is_prefix sub (map ascii_lower s).
Proof.
  induction sub as [|m sub IH]; intros Hsub whole i s; [reflexivity|].
  simpl in Hsub. apply andb_true_iff in Hsub as [Hm Hsub].
  destruct s as [|c s]; [reflexivity|]. simpl.
  destruct (c <? 128)%N eqn:Hc; simpl.
  - now rewrite IH.
  - apply N.ltb_ge in Hc. destruct (tables whole i Hc) as [Hne Hall].
    destruct (unicode_lower whole i c) as [|x l]; [contradiction|].
    simpl in *. apply andb_true_iff in Hall as [Hx _].
    assert (ascii_lower c = c) as ->.
    { unfold ascii_lower.
      destruct (N.leb_spec c 90); [lia | now rewrite andb_false_r]. }
    destruct (N.eqb_spec m x) as [->|_];
      [rewrite Hm in Hx; discriminate|].
    destruct (N.eqb_spec m c) as [->|_]; [|reflexivity].
    apply marker_char_ascii, N.ltb_lt in Hm. lia.
Qed.

Lemma contains_block (m : N) (sub block rest : pystr) :
  marker_char m = true ->
  forallb (fun x => negb (marker_char x)) block = true ->
  contains (m :: sub) (block ++ rest) = contains (m :: sub) rest.
Proof.
  intros Hm. induction block as [|x block IH]; intros H; [reflexivity|].
  simpl in H. apply andb_true_iff in H as [Hx H].
  rewrite <- app_comm_cons, contains_skip; [now apply IH|].
  intros ->. rewrite Hm in Hx. discriminate.
Qed.

(** Whether a marker occurs in [s.lower()] is decided by the ASCII letters
    of [s] alone. *)
Lemma contains_lower_go (m : N) (sub : pystr) :
  forallb marker_char (m :: sub) = true ->
  forall whole i s,
    contains (m :: sub) (lower_go unicode_lower whole i s)
    = contains (m :: sub) (map ascii_lower s).
Proof.
  intros Hsub whole i s. revert i.
  induction s as [|c s IH]; intros i; [reflexivity|].
  pose proof Hsub as Hm. simpl in Hm. apply andb_true_iff in Hm as [Hm _].
  cbn [lower_go map]. destruct (c <? 128)%N eqn:Hc.
  - simpl app. cbn [contains is_prefix]. rewrite IH. f_equal. f_equal.
    apply is_prefix_lower_go. simpl in Hsub.
    now apply andb_true_iff in Hsub as [_ Hsub].
  - apply N.ltb_ge in Hc. destruct (tables whole i Hc) as [_ Hall].
    rewrite contains_block by assumption.
    rewrite contains_skip; [apply IH|].
    assert (ascii_lower c = c) as ->.
    { unfold ascii_lower.
      destruct (N.leb_spec c 90); [lia | now rewrite andb_false_r]. }
    intros ->. apply marker_char_ascii, N.ltb_lt in Hm. lia.
Qed.

(** Trimming a text cannot bring a marker into its lower-cased form. *)
Lemma lower_strip_no_marker (m : N) (sub s : pystr) :
  forallb marker_char (m :: sub) = true ->
  contains (m :: sub) (lower unicode_lower s) = false ->
  contains (m :: sub) (lower unicode_lower (strip s)) = false.
Proof.
  intros Hsub H. unfold lower in *.
  rewrite contains_lower_go in * by assumption.
  destruct (contains (m :: sub) (map ascii_lower (strip s))) eqn:E;
    [|reflexivity].
  apply contains_strip_back in E. congruence.
Qed.

End StringFacts.

(** ** The message path *)

Ltac run_monad :=
  unfold try_except, bind, perform, lift, log, ret, Exception.

Section MessagePath.
Variable unicode_lower : pystr -> nat -> N -> pystr.
Variable env : collaborators.
Variable cfg : config.

(** The run of [process_message_event] on a text message whose trigger
    check succeeds with a text to translate: the profile is looked up, the
    translation is announced in the log, and the service is asked once. *)
Lemma process_message_event_triggered
    (event : MessageEvent) (service : TranslationService_t)
    (text name remainder source_lang target_lang : pystr)
    (api : LineBotApi) (w : world) :
  message event = TextMessage text ->
  line_bot_api cfg = Some api ->
  get_profile env (calls w) (user_id event) = Return name ->
  resolve_trigger unicode_lower (strip text)
    = Some (remainder, source_lang, target_lang) ->
  truthy remainder = true ->
  process_message_event unicode_lower env cfg event service w
  = match translate_text_of service remainder source_lang target_lang
            (logged (called w (CallGetProfile (user_id event)))
                    (LogInfo (MsgTranslating source_lang target_lang
                                             remainder))) with
    | (Return translated_text, w') =>
        (Return (Some (compose_reply name source_lang target_lang
                                     translated_text)), w')
    | (Raise e, w') =>
        (Return (Some (py "An error occurred while processing your message.")),
         logged w' (LogError (MsgProcessingError e)))
    end.
Proof.
  intros Hmsg Hapi Hprofile Htrigger Htext.
  unfold process_message_event. run_monad.
  rewrite Hmsg, Hapi, Hprofile, Htrigger, Htext.
  now destruct (translate_text_of service _ _ _ _) as [[tr|e] w'].
Qed.

(** The run on a text message for which nothing is to be translated:
    only the profile is looked up. *)
Lemma process_message_event_idle
    (event : MessageEvent) (service : TranslationService_t)
    (text name : pystr) (api : LineBotApi) (w : world) :
  message event = TextMessage text ->
  line_bot_api cfg = Some api ->
  get_profile env (calls w) (user_id event) = Return name ->
  match resolve_trigger unicode_lower (strip text) with
  | Some (remainder, _, _) => truthy remainder = false
  | None => True
  end ->
  process_message_event unicode_lower env cfg event service w
  = (Return None, called w (CallGetProfile (user_id event))).
Proof.
  intros Hmsg Hapi Hprofile Hidle.
  unfold process_message_event. run_monad.
  rewrite Hmsg, Hapi, Hprofile.
  destruct (resolve_trigger unicode_lower (strip text))
    as [[[remainder source_lang] target_lang]|]; [|reflexivity].
  now rewrite Hidle.
Qed.

Lemma handle_message_unfold
    (service : TranslationService_t) (event : MessageEvent) (w : world) :
  handle_message unicode_lower env cfg service event w
  = match process_message_event unicode_lower env cfg event service w with
    | (Return (Some (c :: text)), w') =>
        (reply_message env (calls w') (reply_token event) (c :: text),
         called w' (CallReply (reply_token event) (c :: text)))
    | (Return _, w') => (Return tt, w')
    | (Raise e, w') => (Raise e, w')
    end.
Proof.
  unfold handle_message, bind.
  destruct (process_message_event _ _ _ _ _ _) as [[[[|c text]|]|e] w'];
    reflexivity.
Qed.

End MessagePath.

(** ** The trigger check *)

Lemma identity_lower_keeps_markers :
  lower_keeps_markers Scenario.identity_lower.
Proof.
  intros whole i c Hc. split; [discriminate|].
  unfold Scenario.identity_lower, marker_char. simpl.
  rewrite andb_true_r, negb_true_iff, !orb_false_iff, !N.eqb_neq. lia.
Qed.

(** C6, as the code has it: for a text message whose text contains neither
    [#e2j] nor [#j2e] under case-insensitive comparison, the trigger check
    finds nothing; when the profile lookup that precedes the check
    succeeds, [process_message_event] returns no reply, the translation
    service is not asked, and [handle_message] sends nothing. *)
Theorem no_marker_is_no_op
    (unicode_lower : pystr -> nat -> N -> pystr) (env : collaborators)
    (cfg : config) (event : MessageEvent) (service : TranslationService_t)
    (text name : pystr) (api : LineBotApi) (w : world) :
  lower_keeps_markers unicode_lower ->
  message event = TextMessage text ->
  line_bot_api cfg = Some api ->
  get_profile env (calls w) (user_id event) = Return name ->
  contains marker_e2j (lower unicode_lower text) = false ->
  contains marker_j2e (lower unicode_lower text) = false ->
  resolve_trigger unicode_lower (strip text) = None /\
  process_message_event unicode_lower env cfg event service w
  = (Return None, called w (CallGetProfile (user_id event))) /\
  handle_message unicode_lower env cfg service event w
  = (Return tt, called w (CallGetProfile (user_id event))).
Proof.
  intros tables Hmsg Hapi Hprofile He2j Hj2e.
  assert (resolve_trigger unicode_lower (strip text) = None) as Hnone.
  { unfold resolve_trigger.
    change marker_e2j with [35; 101; 50; 106]%N in *.
    change marker_j2e with [35; 106; 50; 101]%N in *.
    rewrite (@lower_strip_no_marker unicode_lower tables
               35%N [101; 50; 106]%N text eq_refl He2j).
    now rewrite (@lower_strip_no_marker unicode_lower tables
                   35%N [106; 50; 101]%N text eq_refl Hj2e). }
  assert (process_message_event unicode_lower env cfg event service w
          = (Return None, called w (CallGetProfile (user_id event)))) as Hrun.
  { eapply process_message_event_idle; eauto. now rewrite Hnone. }
  repeat split; trivial.
  now rewrite handle_message_unfold, Hrun.
Qed.

Lemma no_marker_is_no_op_witness :
  let env := Scenario.bob [EvMessage (Scenario.text_event (py "hello"))]
                          (Return JNull) in
  resolve_trigger Scenario.identity_lower (strip (py "hello")) = None /\
  process_message_event Scenario.identity_lower env Scenario.configured
    (Scenario.text_event (py "hello"))
    (TranslationService env Scenario.configured) initial
  = (Return None, called initial (CallGetProfile (py "U1"))) /\
  handle_message Scenario.identity_lower env Scenario.configured
    (TranslationService env Scenario.configured)
    (Scenario.text_event (py "hello")) initial
  = (Return tt, called initial (CallGetProfile (py "U1"))).
Proof.
  intros env.
  apply (@no_marker_is_no_op Scenario.identity_lower env Scenario.configured
           (Scenario.text_event (py "hello"))
           (TranslationService env Scenario.configured)
           (py "hello") (py "Bob") (MkLineBotApi (py "token")) initial).
  - exact identity_lower_keeps_markers.
  - reflexivity.
  - reflexivity.
  - reflexivity.
  - reflexivity.
  - reflexivity.
Defined.

(** C6 fails when the profile lookup fails: the lookup comes before the
    trigger check, so a text without any marker is answered with the error
    reply. *)
Lemma no_marker_from_unknown_sender :
  contains marker_e2j (lower Scenario.identity_lower (py "hello")) = false /\
  contains marker_j2e (lower Scenario.identity_lower (py "hello")) = false /\
  fst (process_message_event Scenario.identity_lower Scenario.stranger
         Scenario.configured (Scenario.text_event (py "hello"))
         (TranslationService Scenario.stranger Scenario.configured) initial)
  = Return (Some error_reply) /\
  calls (snd (handle_message Scenario.identity_lower Scenario.stranger
                Scenario.configured
                (TranslationService Scenario.stranger Scenario.configured)
                (Scenario.text_event (py "hello")) initial))
  = [CallGetProfile (py "U1"); CallReply (py "r1") error_reply] /\
  ~ (exists w',
        (process_message_event Scenario.identity_lower Scenario.stranger
              Scenario.configured (Scenario.text_event (py "hello"))
              (TranslationService Scenario.stranger Scenario.configured) initial)
        = (Return None, w')).
Proof.
  repeat split. intros [w' H]. discriminate H.
Qed.

(** C4: a text that contains both [#e2j] and [#j2e] is resolved by the
    first check, for [#e2j]: the source language is [en], the target
    language [ja], and the text to translate is what is left once [#e2j]
    and [#E2J] are taken out. *)
Theorem both_markers_select_e2j
    (unicode_lower : pystr -> nat -> N -> pystr) (text : pystr) :
  contains marker_e2j text = true ->
  contains marker_j2e text = true ->
  resolve_trigger unicode_lower (strip text)
  = Some (strip (remove (py "#E2J") (remove (py "#e2j") (strip text))),
          py "en", py "ja").
Proof.
  intros He2j _. unfold resolve_trigger.
  rewrite contains_lower; trivial.
  eapply contains_strip; [| |reflexivity|exact He2j]; reflexivity.
Qed.

Lemma both_markers_select_e2j_witness :
  resolve_trigger Scenario.identity_lower (strip (py " #j2e hi #e2j "))
  = Some (py "#j2e hi", py "en", py "ja").
Proof.
  apply (@both_markers_select_e2j Scenario.identity_lower
           (py " #j2e hi #e2j ")); reflexivity.
Defined.

(** C2: a marker written in mixed case starts the translation but is not
    taken out of the text: for [#E2j hello] the text to translate is
    [#E2j hello], not [hello]. *)
Theorem mixed_case_marker_is_kept
    (unicode_lower : pystr -> nat -> N -> pystr) :
  contains marker_e2j (lower unicode_lower (strip (py "#E2j hello"))) = true /\
  resolve_trigger unicode_lower (strip (py "#E2j hello"))
  = Some (py "#E2j hello", py "en", py "ja").
Proof. split; reflexivity. Qed.

(** C5, as the code has it: when a marker is found and nothing is left of
    the trimmed text once the marker as written in lower case and in upper
    case is taken out and the rest trimmed, then, when the profile lookup
    succeeds, [process_message_event] returns no reply, whatever the
    translation service is, and [handle_message] sends nothing. *)
Theorem empty_remainder_is_no_op
    (unicode_lower : pystr -> nat -> N -> pystr) (env : collaborators)
    (cfg : config) (event : MessageEvent) (service : TranslationService_t)
    (text name : pystr) (api : LineBotApi) (w : world) :
  message event = TextMessage text ->
  line_bot_api cfg = Some api ->
  get_profile env (calls w) (user_id event) = Return name ->
  (contains marker_e2j (lower unicode_lower (strip text)) = true /\
   strip (remove (py "#E2J") (remove (py "#e2j") (strip text))) = [])
  \/
  (contains marker_e2j (lower unicode_lower (strip text)) = false /\
   contains marker_j2e (lower unicode_lower (strip text)) = true /\
   strip (remove (py "#J2E") (remove (py "#j2e") (strip text))) = []) ->
  process_message_event unicode_lower env cfg event service w
  = (Return None, called w (CallGetProfile (user_id event))) /\
  handle_message unicode_lower env cfg service event w
  = (Return tt, called w (CallGetProfile (user_id event))).
Proof.
  intros Hmsg Hapi Hprofile Hempty.
  assert (exists source_lang target_lang,
             resolve_trigger unicode_lower (strip text)
             = Some ([], source_lang, target_lang))
    as [source_lang [target_lang Htrigger]].
  { unfold resolve_trigger.
    destruct Hempty as [[-> ->] | [-> [-> ->]]]; eauto. }
  assert (process_message_event unicode_lower env cfg event service w
          = (Return None, called w (CallGetProfile (user_id event)))) as Hrun.
  { eapply process_message_event_idle; eauto. now rewrite Htrigger. }
  split; trivial.
  now rewrite handle_message_unfold, Hrun.
Qed.

Lemma empty_remainder_is_no_op_witness :
  let env := Scenario.bob [EvMessage (Scenario.text_event (py "#j2e"))]
                          (Return (Scenario.model_response (py "Hello"))) in
  process_message_event Scenario.identity_lower env Scenario.configured
    (Scenario.text_event (py "#j2e"))
    (TranslationService env Scenario.configured) initial
  = (Return None, called initial (CallGetProfile (py "U1"))) /\
  handle_message Scenario.identity_lower env Scenario.configured
    (TranslationService env Scenario.configured)
    (Scenario.text_event (py "#j2e")) initial
  = (Return tt, called initial (CallGetProfile (py "U1"))).
Proof.
  intros env.
  apply (@empty_remainder_is_no_op Scenario.identity_lower env
           Scenario.configured (Scenario.text_event (py "#j2e"))
           (TranslationService env Scenario.configured)
           (py "#j2e") (py "Bob") (MkLineBotApi (py "token")) initial).
  - reflexivity.
  - reflexivity.
  - reflexivity.
  - right. repeat split.
Defined.

(** C5 fails when the profile lookup fails: the text [#j2e] alone, whose
    remainder is empty, is then answered with the error reply. *)
Lemma marker_only_from_unknown_sender :
  strip (remove (py "#J2E") (remove (py "#j2e") (strip (py "#j2e")))) = [] /\
  fst (process_message_event Scenario.identity_lower Scenario.stranger
         Scenario.configured (Scenario.text_event (py "#j2e"))
         (TranslationService Scenario.stranger Scenario.configured) initial)
  = Return (Some error_reply) /\
  calls (snd (handle_message Scenario.identity_lower Scenario.stranger
                Scenario.configured
                (TranslationService Scenario.stranger Scenario.configured)
                (Scenario.text_event (py "#j2e")) initial))
  = [CallGetProfile (py "U1"); CallReply (py "r1") error_reply] /\
  ~ (exists w',
        (process_message_event Scenario.identity_lower Scenario.stranger
              Scenario.configured (Scenario.text_event (py "#j2e"))
              (TranslationService Scenario.stranger Scenario.configured) initial)
        = (Return None, w')).
Proof.
  repeat split. intros [w' H]. discriminate H.
Qed.

(** ** The translation client *)

(** C8: [translate_text] never raises.  Either the endpoint answers, the
    answer decodes and holds a string at [output.message.content[0].text],
    and that string, trimmed, is returned; or some step fails, the failure
    is logged and [None] is returned.  One model call is made in both
    cases. *)
Theorem translate_text_never_raises
    (env : collaborators) (cfg : config)
    (text source_lang target_lang : pystr) (w : world) :
  let body := request_body (prompt_for text target_lang) in
  let w1 := called w (model_request cfg body) in
  (exists raw j t,
      invoke_model env (calls w) (BEDROCK_MODEL_ID cfg) (dumps body)
                   (py "application/json") = Return (Return raw) /\
      json_loads env raw = Return j /\
      text_at_path j = Return (JStr t) /\
      translate_text env cfg text source_lang target_lang w
      = (Return (Some (strip t)), w1))
  \/
  (exists e,
      delivered env cfg (calls w) body = Raise e /\
      translate_text env cfg text source_lang target_lang w
      = (Return None, logged w1 (LogError (MsgTranslationFailed e)))).
Proof.
  intros body w1. subst w1.
  unfold translate_text, delivered, text_at_path. run_monad.
  fold body. cbn [fst snd].
  destruct (invoke_model env (calls w) (BEDROCK_MODEL_ID cfg) (dumps body)
                         (py "application/json")) as [[raw|e]|e];
    cbn [and_then]; try (right; exists e; now split).
  destruct (json_loads env raw) as [j|e] eqn:Hloads;
    cbn [and_then]; try (right; exists e; now split).
  destruct (getitem j (py "output")) as [output|e] eqn:Houtput;
    cbn [and_then]; try (right; exists e; now split).
  destruct (getitem output (py "message")) as [msg|e] eqn:Hmsg;
    cbn [and_then]; try (right; exists e; now split).
  destruct (getitem msg (py "content")) as [content|e] eqn:Hcontent;
    cbn [and_then]; try (right; exists e; now split).
  destruct (getitem0 content) as [first|e] eqn:Hfirst;
    cbn [and_then]; try (right; exists e; now split).
  destruct (getitem first (py "text")) as [text_field|e] eqn:Htext;
    cbn [and_then]; try (right; exists e; now split).
  destruct text_field as [| | |t| |];
    try (right; exists AttributeError; now split).
  left. exists raw, j, t. repeat split; trivial.
  rewrite Houtput. cbn [and_then]. rewrite Hmsg. cbn [and_then].
  rewrite Hcontent. cbn [and_then]. now rewrite Hfirst.
Qed.

(** ** The reply *)

(** C7: when a trigger matched and the translation service returns a
    text, the reply is the sender's name, the language pair, a rule of
    twenty dashes and the translated text, and [handle_message] sends
    it to the event's reply token. *)
Theorem successful_translation_reply
    (unicode_lower : pystr -> nat -> N -> pystr) (env : collaborators)
    (cfg : config) (event : MessageEvent) (service : TranslationService_t)
    (text name remainder source_lang target_lang translated : pystr)
    (api : LineBotApi) (w w' : world) :
  message event = TextMessage text ->
  line_bot_api cfg = Some api ->
  get_profile env (calls w) (user_id event) = Return name ->
  resolve_trigger unicode_lower (strip text)
    = Some (remainder, source_lang, target_lang) ->
  truthy remainder = true ->
  translate_text_of service remainder source_lang target_lang
    (logged (called w (CallGetProfile (user_id event)))
            (LogInfo (MsgTranslating source_lang target_lang remainder)))
    = (Return (Some translated), w') ->
  let reply :=
    py "Message from @" ++ name ++ py ": (" ++ source_lang ++ py " -> "
      ++ target_lang ++ py "):" ++ NL ++ py "--------------------" ++ NL
      ++ translated in
  process_message_event unicode_lower env cfg event service w
  = (Return (Some reply), w') /\
  handle_message unicode_lower env cfg service event w
  = (reply_message env (calls w') (reply_token event) reply,
     called w' (CallReply (reply_token event) reply)).
Proof.
  intros Hmsg Hapi Hprofile Htrigger Htext Htranslated reply.
  assert (process_message_event unicode_lower env cfg event service w
          = (Return (Some reply), w')) as Hrun.
  { erewrite process_message_event_triggered by eassumption.
    now rewrite Htranslated. }
  split; [exact Hrun|].
  now rewrite handle_message_unfold, Hrun.
Qed.

Lemma successful_translation_reply_witness :
  let env :=
    Scenario.bob
      [EvMessage (Scenario.text_event (py "#j2e " ++ Scenario.konnichiwa))]
      (Return (Scenario.model_response (py "Hello"))) in
  let reply :=
    py "Message from @Bob: (ja -> en):" ++ NL ++ py "--------------------"
      ++ NL ++ py "Hello" in
  let w' :=
    called
      (logged (called initial (CallGetProfile (py "U1")))
              (LogInfo (MsgTranslating (py "ja") (py "en")
                                       Scenario.konnichiwa)))
      (model_request Scenario.configured
         (request_body (prompt_for Scenario.konnichiwa (py "en")))) in
  process_message_event Scenario.identity_lower env Scenario.configured
    (Scenario.text_event (py "#j2e " ++ Scenario.konnichiwa))
    (TranslationService env Scenario.configured) initial
  = (Return (Some reply), w') /\
  handle_message Scenario.identity_lower env Scenario.configured
    (TranslationService env Scenario.configured)
    (Scenario.text_event (py "#j2e " ++ Scenario.konnichiwa)) initial
  = (Return tt, called w' (CallReply (py "r1") reply)).
Proof.
  intros env reply w'.
  apply (@successful_translation_reply Scenario.identity_lower env
           Scenario.configured
           (Scenario.text_event (py "#j2e " ++ Scenario.konnichiwa))
           (TranslationService env Scenario.configured)
           (py "#j2e " ++ Scenario.konnichiwa) (py "Bob")
           Scenario.konnichiwa (py "ja") (py "en") (py "Hello")
           (MkLineBotApi (py "token")) initial w'); reflexivity.
Defined.

(** C9: when a trigger matched and the translation service returns
    [None], the reply has the same shape as for a translated text, with
    [None] written where the translation would stand; it is sent like any
    other reply and nothing else tells the user of the failure. *)
Theorem failed_translation_reply
    (unicode_lower : pystr -> nat -> N -> pystr) (env : collaborators)
    (cfg : config) (event : MessageEvent) (service : TranslationService_t)
    (text name remainder source_lang target_lang : pystr)
    (api : LineBotApi) (w w' : world) :
  message event = TextMessage text ->
  line_bot_api cfg = Some api ->
  get_profile env (calls w) (user_id event) = Return name ->
  resolve_trigger unicode_lower (strip text)
    = Some (remainder, source_lang, target_lang) ->
  truthy remainder = true ->
  translate_text_of service remainder source_lang target_lang
    (logged (called w (CallGetProfile (user_id event)))
            (LogInfo (MsgTranslating source_lang target_lang remainder)))
    = (Return None, w') ->
  let reply :=
    py "Message from @" ++ name ++ py ": (" ++ source_lang ++ py " -> "
      ++ target_lang ++ py "):" ++ NL ++ py "--------------------" ++ NL
      ++ py "None" in
  process_message_event unicode_lower env cfg event service w
  = (Return (Some reply), w') /\
  handle_message unicode_lower env cfg service event w
  = (reply_message env (calls w') (reply_token event) reply,
     called w' (CallReply (reply_token event) reply)).
Proof.
  intros Hmsg Hapi Hprofile Htrigger Htext Hfailed reply.
  assert (process_message_event unicode_lower env cfg event service w
          = (Return (Some reply), w')) as Hrun.
  { erewrite process_message_event_triggered by eassumption.
    now rewrite Hfailed. }
  split; [exact Hrun|].
  now rewrite handle_message_unfold, Hrun.
Qed.

Lemma failed_translation_reply_witness :
  let env :=
    Scenario.bob [EvMessage (Scenario.text_event (py "Hello #E2J"))]
                 (Raise (CollaboratorError (py "JSONDecodeError"))) in
  let reply :=
    py "Message from @Bob: (en -> ja):" ++ NL ++ py "--------------------"
      ++ NL ++ py "None" in
  let w' :=
    logged
      (called
         (logged (called initial (CallGetProfile (py "U1")))
                 (LogInfo (MsgTranslating (py "en") (py "ja") (py "Hello"))))
         (model_request Scenario.configured
            (request_body (prompt_for (py "Hello") (py "ja")))))
      (LogError (MsgTranslationFailed
                   (CollaboratorError (py "JSONDecodeError")))) in
  process_message_event Scenario.identity_lower env Scenario.configured
    (Scenario.text_event (py "Hello #E2J"))
    (TranslationService env Scenario.configured) initial
  = (Return (Some reply), w') /\
  handle_message Scenario.identity_lower env Scenario.configured
    (TranslationService env Scenario.configured)
    (Scenario.text_event (py "Hello #E2J")) initial
  = (Return tt, called w' (CallReply (py "r1") reply)).
Proof.
  intros env reply w'.
  apply (@failed_translation_reply Scenario.identity_lower env
           Scenario.configured (Scenario.text_event (py "Hello #E2J"))
           (TranslationService env Scenario.configured)
           (py "Hello #E2J") (py "Bob") (py "Hello") (py "en") (py "ja")
           (MkLineBotApi (py "token")) initial w'); reflexivity.
Defined.

(** ** The entry point *)

Section EntryPoint.
Variable unicode_lower : pystr -> nat -> N -> pystr.
Variable env : collaborators.
Variable cfg : config.

Lemma try_except_Exception_returns {A} (m : M A) (h : exn -> M A) (w : world) :
  (forall e w1, exists a w2, h e w1 = (Return a, w2)) ->
  exists a w', try_except m Exception h w = (Return a, w').
Proof.
  intros Hh. unfold try_except, Exception.
  destruct (m w) as [[a|e] w1]; [now exists a, w1 | apply Hh].
Qed.

(** Whatever happens while a message is processed ends in a value. *)
Lemma process_message_event_never_raises
    (event : MessageEvent) (service : TranslationService_t) (w : world) :
  exists r w',
    process_message_event unicode_lower env cfg event service w
    = (Return r, w').
Proof.
  apply try_except_Exception_returns. intros e w1.
  run_monad. eauto.
Qed.

(** The callback can only fail in sending the reply. *)
Lemma handle_message_returns
    (service : TranslationService_t) (event : MessageEvent) (w : world) :
  (forall history token text,
      reply_message env history token text = Return tt) ->
  exists w',
    handle_message unicode_lower env cfg service event w = (Return tt, w').
Proof.
  intros Hreply. rewrite handle_message_unfold.
  destruct (process_message_event_never_raises event service w)
    as [r [w' ->]].
  destruct r as [[|c text]|]; try rewrite Hreply; eauto.
Qed.

Lemma for_each_returns {A} (f : A -> M unit) (l : list A) :
  (forall x w, exists w', f x w = (Return tt, w')) ->
  forall w, exists w', for_each l f w = (Return tt, w').
Proof.
  intros Hf. induction l as [|x l IH]; intros w; simpl.
  - now exists w.
  - unfold bind. destruct (Hf x w) as [w1 ->]. apply IH.
Qed.

(** [handler.handle] on a payload the parser accepts, when replies can be
    sent. *)
Lemma handle_returns
    (service : TranslationService_t) (body signature : json)
    (events : list webhook_event) (w : world) :
  (forall history token text,
      reply_message env history token text = Return tt) ->
  parse env (calls w) body signature = Return events ->
  exists w',
    handle env body signature
           (handle_message unicode_lower env cfg service) w
    = (Return tt, w').
Proof.
  intros Hreply Hparse. unfold handle, bind at 1, perform. rewrite Hparse.
  apply for_each_returns. intros [e|] w1.
  - destruct (message e); [now apply handle_message_returns|].
    now exists w1.
  - now exists w1.
Qed.

(** [handler.handle] on a payload the parser rejects: nothing else is
    called. *)
Lemma handle_rejects
    (callback : MessageEvent -> M unit) (body signature : json)
    (e : exn) (w : world) :
  parse env (calls w) body signature = Raise e ->
  handle env body signature callback w
  = (Raise e, called w (CallParse body signature)).
Proof.
  intros Hparse. unfold handle, bind, perform. now rewrite Hparse.
Qed.

Lemma lambda_handler_unconfigured (event : json) (w : world) :
  line_bot_api cfg = None \/ handler cfg = None ->
  lambda_handler unicode_lower env cfg event w
  = (Return (500%N, dumps (JStr config_error_message)),
     logged (logged w (LogInfo (MsgEvent event)))
            (LogError (MsgText config_error_message))).
Proof.
  intros H. unfold lambda_handler. run_monad.
  destruct H as [-> | ->]; [reflexivity|].
  now destruct (line_bot_api cfg).
Qed.

Lemma lambda_handler_configured
    (event headers signature body : json) (api : LineBotApi)
    (h : WebhookHandler) (w : world) :
  line_bot_api cfg = Some api ->
  handler cfg = Some h ->
  getitem event (py "headers") = Return headers ->
  getitem headers (py "x-line-signature") = Return signature ->
  getitem event (py "body") = Return body ->
  lambda_handler unicode_lower env cfg event w
  = match handle env body signature
                 (handle_message unicode_lower env cfg
                                 (TranslationService env cfg))
                 (logged w (LogInfo (MsgEvent event))) with
    | (Return _, w') => (Return (200%N, dumps (JStr (py "OK"))), w')
    | (Raise e, w') =>
        if is_invalid_signature e
        then (Return (502%N, dumps (JStr invalid_signature_message)),
              logged w' (LogError (MsgText invalid_signature_message)))
        else (Raise e, w')
    end.
Proof.
  intros Hapi Hh Hheaders Hsignature Hbody.
  unfold lambda_handler. run_monad.
  rewrite Hapi, Hh, Hheaders, Hsignature, Hbody.
  now destruct (handle _ _ _ _ _) as [[u|e] w'].
Qed.

End EntryPoint.

(** C10: with the LINE configuration present and a request whose
    signature the parser rejects, [lambda_handler] returns status 502 with
    the invalid-signature message, JSON-encoded, as body; the parser is the
    only collaborator called, so no message is processed. *)
Theorem invalid_signature_is_502
    (unicode_lower : pystr -> nat -> N -> pystr) (env : collaborators)
    (cfg : config) (event headers signature body : json)
    (api : LineBotApi) (h : WebhookHandler) (w : world) :
  line_bot_api cfg = Some api ->
  handler cfg = Some h ->
  getitem event (py "headers") = Return headers ->
  getitem headers (py "x-line-signature") = Return signature ->
  getitem event (py "body") = Return body ->
  parse env (calls w) body signature = Raise InvalidSignatureError ->
  exists w',
    lambda_handler unicode_lower env cfg event w
    = (Return (502%N, dumps (JStr invalid_signature_message)), w') /\
    calls w' = calls w ++ [CallParse body signature].
Proof.
  intros Hapi Hh Hheaders Hsignature Hbody Hparse.
  erewrite lambda_handler_configured by eassumption.
  rewrite (@handle_rejects env _ body signature InvalidSignatureError
             (logged w (LogInfo (MsgEvent event))) Hparse).
  cbn [is_invalid_signature]. eexists. split; reflexivity.
Qed.

Lemma invalid_signature_is_502_witness :
  exists w',
    lambda_handler Scenario.identity_lower Scenario.forged Scenario.configured
                   Scenario.signed_event initial
    = (Return (502%N, dumps (JStr invalid_signature_message)), w') /\
    calls w' = [CallParse (JStr (py "{}")) (JStr (py "c2ln"))].
Proof.
  apply (@invalid_signature_is_502 Scenario.identity_lower Scenario.forged
           Scenario.configured Scenario.signed_event
           (JObj [(py "x-line-signature", JStr (py "c2ln"))])
           (JStr (py "c2ln")) (JStr (py "{}"))
           (MkLineBotApi (py "token")) (MkWebhookHandler (py "secret"))
           initial); reflexivity.
Defined.

(** C1, as the code has it: when the access token or the signing secret is
    absent or empty, [lambda_handler] returns status 500 with the
    configuration-error message, JSON-encoded, as body, and calls no
    collaborator. *)
Theorem missing_line_configuration_is_500
    (unicode_lower : pystr -> nat -> N -> pystr) (env : collaborators)
    (cfg : config) (event : json) (w : world) :
  CHANNEL_ACCESS_TOKEN cfg = None \/ CHANNEL_ACCESS_TOKEN cfg = Some [] \/
  CHANNEL_SECRET cfg = None \/ CHANNEL_SECRET cfg = Some [] ->
  exists w',
    lambda_handler unicode_lower env cfg event w
    = (Return (500%N, dumps (JStr config_error_message)), w') /\
    calls w' = calls w.
Proof.
  intros H. eexists. split.
  - apply lambda_handler_unconfigured. unfold line_bot_api, handler.
    destruct H as [-> | [-> | [-> | ->]]]; auto.
  - reflexivity.
Qed.

Lemma missing_line_configuration_is_500_witness :
  exists w',
    lambda_handler Scenario.identity_lower
                   (Scenario.bob [] (Return JNull)) Scenario.without_token
                   Scenario.signed_event initial
    = (Return (500%N, dumps (JStr config_error_message)), w') /\
    calls w' = [].
Proof.
  apply (@missing_line_configuration_is_500 Scenario.identity_lower
           (Scenario.bob [] (Return JNull)) Scenario.without_token
           Scenario.signed_event initial).
  left. reflexivity.
Defined.

(** C1 fails for the two Bedrock settings: without region and model
    identifier the handler goes on to the parser and answers 200, not
    500. *)
Lemma missing_model_id_is_not_500 :
  BEDROCK_REGION Scenario.without_model = None /\
  BEDROCK_MODEL_ID Scenario.without_model = None /\
  lambda_handler Scenario.identity_lower (Scenario.bob [] (Return JNull))
                 Scenario.without_model Scenario.signed_event initial
  = (Return (200%N, dumps (JStr (py "OK"))),
     {| calls := [CallParse (JStr (py "{}")) (JStr (py "c2ln"))];
        logs := [LogInfo (MsgEvent Scenario.signed_event)] |}) /\
  ~ (exists w',
        lambda_handler Scenario.identity_lower
                       (Scenario.bob [] (Return JNull))
                       Scenario.without_model Scenario.signed_event initial
        = (Return (500%N, dumps (JStr config_error_message)), w') /\
        calls w' = calls initial).
Proof.
  repeat split. intros [w' [H _]]. discriminate H.
Qed.

(** C3, as the code has it: a response of [lambda_handler] has status 200,
    500 or 502 and a JSON-encoded string as body.  There is a response
    when the LINE configuration is missing (500) and, with the
    configuration present and the signature header and the body in the
    event, when the parser rejects the signature (502) or accepts it and
    every reply can be sent (200, with body ["OK"]).  With the
    configuration present there is no response when the lookup of the
    header or of the body fails, nor when [handler.handle] raises anything
    but [InvalidSignatureError], be it from the parser or from the
    callback: the exception is raised out of [lambda_handler]. *)
Theorem lambda_handler_response
    (unicode_lower : pystr -> nat -> N -> pystr) (env : collaborators)
    (cfg : config) (event : json) (w : world) :
  (forall r w',
      lambda_handler unicode_lower env cfg event w = (Return r, w') ->
      In (statusCode r) [200; 500; 502]%N /\
      exists s, body_of r = dumps (JStr s)) /\
  (line_bot_api cfg = None \/ handler cfg = None ->
   exists w',
     lambda_handler unicode_lower env cfg event w
     = (Return (500%N, dumps (JStr config_error_message)), w')) /\
  (forall api h headers signature body,
      line_bot_api cfg = Some api ->
      handler cfg = Some h ->
      getitem event (py "headers") = Return headers ->
      getitem headers (py "x-line-signature") = Return signature ->
      getitem event (py "body") = Return body ->
      (parse env (calls w) body signature = Raise InvalidSignatureError ->
       exists w',
         lambda_handler unicode_lower env cfg event w
         = (Return (502%N, dumps (JStr invalid_signature_message)), w')) /\
      (forall events,
          parse env (calls w) body signature = Return events ->
          (forall history token text,
              reply_message env history token text = Return tt) ->
          exists w',
            lambda_handler unicode_lower env cfg event w
            = (Return (200%N, dumps (JStr (py "OK"))), w'))) /\
  (forall api h e,
      line_bot_api cfg = Some api ->
      handler cfg = Some h ->
      getitem event (py "headers") = Raise e \/
      (exists headers,
          getitem event (py "headers") = Return headers /\
          (getitem headers (py "x-line-signature") = Raise e \/
           exists signature,
             getitem headers (py "x-line-signature") = Return signature /\
             getitem event (py "body") = Raise e)) ->
      lambda_handler unicode_lower env cfg event w
      = (Raise e, logged w (LogInfo (MsgEvent event)))) /\
  (forall api h headers signature body e,
      line_bot_api cfg = Some api ->
      handler cfg = Some h ->
      getitem event (py "headers") = Return headers ->
      getitem headers (py "x-line-signature") = Return signature ->
      getitem event (py "body") = Return body ->
      is_invalid_signature e = false ->
      (forall w1,
          handle env body signature
                 (handle_message unicode_lower env cfg
                                 (TranslationService env cfg))
                 (logged w (LogInfo (MsgEvent event)))
          = (Raise e, w1) ->
          lambda_handler unicode_lower env cfg event w = (Raise e, w1)) /\
      (parse env (calls w) body signature = Raise e ->
       lambda_handler unicode_lower env cfg event w
       = (Raise e,
          called (logged w (LogInfo (MsgEvent event)))
                 (CallParse body signature)))).
Proof.
  split; [|split; [|split; [|split]]].
  - intros r w'.
    destruct (line_bot_api cfg) as [api|] eqn:Hapi;
      [destruct (handler cfg) as [h|] eqn:Hh|].
    + unfold lambda_handler. run_monad. rewrite Hapi, Hh.
      destruct (getitem event (py "headers")) as [headers|e];
        [|discriminate].
      destruct (getitem headers (py "x-line-signature")) as [signature|e];
        [|discriminate].
      destruct (getitem event (py "body")) as [body|e]; [|discriminate].
      destruct (handle _ _ _ _ _) as [[u|e] w1].
      * intros [= <- _]. split; [simpl; tauto | now exists (py "OK")].
      * destruct (is_invalid_signature e); [|discriminate].
        intros [= <- _].
        split; [simpl; tauto | now exists invalid_signature_message].
    + rewrite lambda_handler_unconfigured by now right.
      intros [= <- _].
      split; [simpl; tauto | now exists config_error_message].
    + rewrite lambda_handler_unconfigured by now left.
      intros [= <- _].
      split; [simpl; tauto | now exists config_error_message].
  - intros H. rewrite lambda_handler_unconfigured by assumption. eauto.
  - intros api h headers signature body Hapi Hh Hheaders Hsignature Hbody.
    erewrite lambda_handler_configured by eassumption. split.
    + intros Hparse.
      rewrite (@handle_rejects env _ body signature InvalidSignatureError
                 (logged w (LogInfo (MsgEvent event))) Hparse).
      cbn [is_invalid_signature]. eauto.
    + intros events Hparse Hreply.
      destruct (@handle_returns unicode_lower env cfg
                  (TranslationService env cfg) body signature events
                  (logged w (LogInfo (MsgEvent event))) Hreply Hparse)
        as [w' ->].
      eauto.
  - intros api h e Hapi Hh Hlookup. unfold lambda_handler. run_monad.
    rewrite Hapi, Hh.
    destruct Hlookup as [-> | [headers [-> [-> | [signature [-> Hbody]]]]]];
      try reflexivity.
    now rewrite Hbody.
  - intros api h headers signature body e Hapi Hh Hheaders Hsignature Hbody
           Hother.
    erewrite lambda_handler_configured by eassumption. split.
    + intros w1 ->. now rewrite Hother.
    + intros Hparse.
      rewrite (@handle_rejects env _ body signature e
                 (logged w (LogInfo (MsgEvent event))) Hparse).
      now rewrite Hother.
Qed.

Lemma lambda_handler_response_witness :
  let env :=
    Scenario.bob
      [EvMessage (Scenario.text_event (py "#j2e " ++ Scenario.konnichiwa))]
      (Return (Scenario.model_response (py "Hello"))) in
  (exists w',
      lambda_handler Scenario.identity_lower env Scenario.configured
                     Scenario.signed_event initial
      = (Return (200%N, dumps (JStr (py "OK"))), w')) /\
  lambda_handler Scenario.identity_lower env Scenario.configured
                 Scenario.capitalised_event initial
  = (Raise KeyError,
     logged initial (LogInfo (MsgEvent Scenario.capitalised_event))).
Proof.
  intros env. split.
  - apply (proj1 (proj2 (proj2
             (lambda_handler_response Scenario.identity_lower env
                Scenario.configured Scenario.signed_event initial)))
             (MkLineBotApi (py "token")) (MkWebhookHandler (py "secret"))
             (JObj [(py "x-line-signature", JStr (py "c2ln"))])
             (JStr (py "c2ln")) (JStr (py "{}"))
             eq_refl eq_refl eq_refl eq_refl eq_refl)
      with (events := [EvMessage (Scenario.text_event
                                    (py "#j2e " ++ Scenario.konnichiwa))]).
    + reflexivity.
    + reflexivity.
  - apply (proj1 (proj2 (proj2 (proj2
             (lambda_handler_response Scenario.identity_lower env
                Scenario.configured Scenario.capitalised_event initial))))
             (MkLineBotApi (py "token")) (MkWebhookHandler (py "secret"))
             KeyError eq_refl eq_refl).
    right. exists (JObj [(py "X-Line-Signature", JStr (py "c2ln"))]).
    split; [reflexivity | left; reflexivity].
Defined.

(** C3 fails when the gateway delivers the header under another
    capitalisation: the lookup of [x-line-signature] raises [KeyError],
    and [lambda_handler] raises it on instead of returning a response. *)
Lemma capitalised_header_raises :
  lambda_handler Scenario.identity_lower (Scenario.bob [] (Return JNull))
                 Scenario.configured Scenario.capitalised_event initial
  = (Raise KeyError,
     {| calls := [];
        logs := [LogInfo (MsgEvent Scenario.capitalised_event)] |}) /\
  ~ (exists r w',
        lambda_handler Scenario.identity_lower
                       (Scenario.bob [] (Return JNull))
                       Scenario.configured Scenario.capitalised_event initial
        = (Return r, w')).
Proof.
  split; [reflexivity|]. intros [r [w' H]]. discriminate H.
Qed.


(** * Further properties *)

(** ** More facts about the string built-ins *)

Section TrimFacts.

Lemma lstrip_cases (s : pystr) :
  lstrip s = [] \/ exists c t, lstrip s = c :: t /\ isspace c = false.
Proof.
  induction s as [|c s IH]; simpl; [now left|].
  destruct (isspace c) eqn:Hc; [exact IH|].
  right. now exists c, s.
Qed.

Lemma lstrip_idem (s : pystr) : lstrip (lstrip s) = lstrip s.
Proof.
  destruct (lstrip_cases s) as [-> | [c [t [-> Hc]]]]; [reflexivity|].
  simpl. now rewrite Hc.
Qed.

Lemma lstrip_snoc (c : N) (l : pystr) :
  isspace c = false -> exists l', lstrip (l ++ [c]) = l' ++ [c].
Proof.
  intros Hc. induction l as [|a l IH]; simpl.
  - rewrite Hc. now exists [].
  - destruct (isspace a); [exact IH|]. now exists (a :: l).
Qed.

Lemma rstrip_idem (s : pystr) : rstrip (rstrip s) = rstrip s.
Proof.
  unfold rstrip. now rewrite rev_involutive, lstrip_idem.
Qed.

(** Trimming the right end leaves a trimmed left end alone. *)
Lemma lstrip_rstrip (s : pystr) :
  lstrip s = s -> lstrip (rstrip s) = rstrip s.
Proof.
  intros Hs. destruct (lstrip_cases s) as [H | [c [t [H Hc]]]];
    rewrite Hs in H; subst s; [reflexivity|].
  unfold rstrip. simpl rev.
  destruct (@lstrip_snoc c (rev t) Hc) as [l' ->].
  rewrite rev_app_distr. simpl. now rewrite Hc.
Qed.

(** [strip] is idempotent. *)
Lemma strip_idem (s : pystr) : strip (strip s) = strip s.
Proof.
  unfold strip.
  rewrite (@lstrip_rstrip (lstrip s) (lstrip_idem s)).
  apply rstrip_idem.
Qed.

(** Nothing is replaced in a string the pattern does not occur in. *)
Lemma remove_absent (old s : pystr) :
  contains old s = false -> remove old s = s.
Proof.
  destruct old as [|m old]; [reflexivity|]. simpl remove.
  induction s as [|c s IH]; [reflexivity|].
  cbn [contains]. intros H. apply orb_false_iff in H as [Hp Hc].
  cbn [remove_go]. rewrite Hp. now rewrite IH.
Qed.

Lemma contains_strip_absent (sub s : pystr) :
  contains sub s = false -> contains sub (strip s) = false.
Proof.
  intros H. destruct (contains sub (strip s)) eqn:E; [|reflexivity].
  rewrite <- (map_id (strip s)) in E. apply contains_strip_back in E.
  rewrite map_id in E. congruence.
Qed.

Lemma ascii_lower_inv (c m : N) :
  ascii_lower c = m -> (m < 128)%N ->
  (c <? 128)%N = true /\ (c = m \/ (c + 32 = m)%N).
Proof.
  unfold ascii_lower. intros H Hm.
  destruct ((65 <=? c) && (c <=? 90))%N eqn:E.
  - apply andb_true_iff in E as [E1 E2]. apply N.leb_le in E1, E2.
    split; [apply N.ltb_lt; lia | now right].
  - subst m. split; [now apply N.ltb_lt | now left].
Qed.

Variable unicode_lower : pystr -> nat -> N -> pystr.

(** An ASCII pattern found in [s] is found, lower-cased, in
    [s.lower()]. *)
Lemma contains_lower_variant (variant s : pystr) :
  forallb (fun c => (c <? 128)%N) variant = true ->
  contains variant s = true ->
  contains (map ascii_lower variant) (lower unicode_lower s) = true.
Proof.
  intros Hascii H. apply contains_iff in H as [a [b Hs]].
  unfold lower. rewrite Hs at 2. rewrite !lower_go_app.
  rewrite (@lower_go_ascii unicode_lower _ _ variant Hascii).
  apply contains_iff. eauto.
Qed.

End TrimFacts.

(** ** More on the trigger check *)

(** What the trigger check yields is trimmed, and its languages are one of
    the two pairs. *)
Lemma resolve_trigger_yields
    (unicode_lower : pystr -> nat -> N -> pystr)
    (message_text remainder source_lang target_lang : pystr) :
  resolve_trigger unicode_lower message_text
    = Some (remainder, source_lang, target_lang) ->
  strip remainder = remainder /\ language_pair source_lang target_lang.
Proof.
  unfold resolve_trigger, language_pair.
  destruct (contains marker_e2j _);
    [|destruct (contains marker_j2e _); [|discriminate]];
    intros [= <- <- <-]; (split; [apply strip_idem | auto]).
Qed.

(** X1: a text with [#j2e] and no spelling of [#e2j] is translated from
    Japanese to English, and the text to translate is what is left once
    [#j2e] and [#J2E] are taken out. *)
Theorem j2e_alone_selects_ja_en
    (unicode_lower : pystr -> nat -> N -> pystr) (text : pystr) :
  lower_keeps_markers unicode_lower ->
  contains marker_e2j (lower unicode_lower text) = false ->
  contains marker_j2e text = true ->
  resolve_trigger unicode_lower (strip text)
  = Some (strip (remove (py "#J2E") (remove (py "#j2e") (strip text))),
          py "ja", py "en").
Proof.
  intros tables He2j Hj2e. unfold resolve_trigger.
  change marker_e2j with [35; 101; 50; 106]%N in *.
  rewrite (@lower_strip_no_marker unicode_lower tables
             35%N [101; 50; 106]%N text eq_refl He2j).
  rewrite contains_lower; trivial.
  eapply contains_strip; [| |reflexivity|exact Hj2e]; reflexivity.
Qed.

Lemma j2e_alone_selects_ja_en_witness :
  resolve_trigger Scenario.identity_lower
                  (strip (py " #j2e " ++ Scenario.konnichiwa))
  = Some (Scenario.konnichiwa, py "ja", py "en").
Proof.
  apply (@j2e_alone_selects_ja_en Scenario.identity_lower
           (py " #j2e " ++ Scenario.konnichiwa)).
  - exact identity_lower_keeps_markers.
  - reflexivity.
  - reflexivity.
Defined.

(** X2: a marker is found in whatever mix of upper and lower case it is
    written: a text that contains a spelling of [#e2j] or of [#j2e]
    always starts a translation. *)
Theorem any_spelling_triggers
    (unicode_lower : pystr -> nat -> N -> pystr)
    (marker variant text : pystr) :
  marker = marker_e2j \/ marker = marker_j2e ->
  map ascii_lower variant = marker ->
  contains variant text = true ->
  contains marker (lower unicode_lower (strip text)) = true /\
  resolve_trigger unicode_lower (strip text) <> None.
Proof.
  intros Hmarker Hmap Hin.
  assert (contains marker (lower unicode_lower (strip text)) = true) as Hfound.
  { assert (exists a b c d, variant = [a; b; c; d]) as [a [b [c [d ->]]]].
    { destruct Hmarker; subst marker;
        destruct variant as [|a [|b [|c [|d [|x variant]]]]];
        try discriminate; eauto. }
    assert ((a <? 128)%N = true /\ (b <? 128)%N = true /\
            (c <? 128)%N = true /\ (d <? 128)%N = true /\
            isspace a = false /\ isspace d = false) as Hchars.
    { destruct Hmarker; subst marker; injection Hmap as Ha Hb Hc Hd;
        apply ascii_lower_inv in Ha as [? [Ha|Ha]]; try reflexivity;
        apply ascii_lower_inv in Hb as [? _]; try reflexivity;
        apply ascii_lower_inv in Hc as [? _]; try reflexivity;
        apply ascii_lower_inv in Hd as [? [Hd|Hd]]; try reflexivity;
        repeat split; trivial;
        try (subst a; reflexivity); try (subst d; reflexivity);
        try (replace a with 3%N by lia; reflexivity);
        try (replace d with 74%N by lia; reflexivity);
        try (replace d with 69%N by lia; reflexivity). }
    destruct Hchars as [Ha [Hb [Hc [Hd [Hsa Hsd]]]]].
    rewrite <- Hmap. apply contains_lower_variant.
    - simpl. now rewrite Ha, Hb, Hc, Hd.
    - eapply contains_strip; [exact Hsa | exact Hsd | reflexivity | exact Hin]. }
  split; [exact Hfound|].
  unfold resolve_trigger. destruct Hmarker; subst marker.
  - rewrite Hfound. discriminate.
  - rewrite Hfound. destruct (contains marker_e2j _); discriminate.
Qed.

Lemma any_spelling_triggers_witness :
  contains marker_j2e
           (lower Scenario.identity_lower (strip (py "good morning #J2e")))
  = true /\
  resolve_trigger Scenario.identity_lower (strip (py "good morning #J2e"))
  <> None.
Proof.
  apply (@any_spelling_triggers Scenario.identity_lower marker_j2e
           (py "#J2e") (py "good morning #J2e")).
  - right. reflexivity.
  - reflexivity.
  - reflexivity.
Defined.

(** X3: when a marker is found but the text holds neither [#e2j] nor
    [#E2J] as written, nothing is taken out: the whole trimmed message,
    marker included, is the text to translate. *)
Theorem other_spelling_is_translated_too
    (unicode_lower : pystr -> nat -> N -> pystr) (text : pystr) :
  contains marker_e2j (lower unicode_lower (strip text)) = true ->
  contains (py "#e2j") text = false ->
  contains (py "#E2J") text = false ->
  resolve_trigger unicode_lower (strip text)
  = Some (strip text, py "en", py "ja").
Proof.
  intros Hfound Hlower Hupper. unfold resolve_trigger. rewrite Hfound.
  rewrite (remove_absent _ _ (contains_strip_absent _ _ Hlower)).
  rewrite (remove_absent _ _ (contains_strip_absent _ _ Hupper)).
  now rewrite strip_idem.
Qed.

Lemma other_spelling_is_translated_too_witness :
  resolve_trigger Scenario.identity_lower (strip (py " thanks #e2J "))
  = Some (py "thanks #e2J", py "en", py "ja").
Proof.
  apply (@other_spelling_is_translated_too Scenario.identity_lower
           (py " thanks #e2J ")); reflexivity.
Defined.

(** ** More on the message path *)

(** X4: when the profile lookup fails, [process_message_event] logs the
    error and returns the fixed error reply without looking at the text
    or asking the translation service, and [handle_message] sends that
    reply to the event's reply token. *)
Theorem profile_failure_is_answered
    (unicode_lower : pystr -> nat -> N -> pystr) (env : collaborators)
    (cfg : config) (event : MessageEvent) (service : TranslationService_t)
    (text : pystr) (api : LineBotApi) (e : exn) (w : world) :
  message event = TextMessage text ->
  line_bot_api cfg = Some api ->
  get_profile env (calls w) (user_id event) = Raise e ->
  let w1 := logged (called w (CallGetProfile (user_id event)))
                   (LogError (MsgProcessingError e)) in
  process_message_event unicode_lower env cfg event service w
  = (Return (Some error_reply), w1) /\
  handle_message unicode_lower env cfg service event w
  = (reply_message env (calls w1) (reply_token event) error_reply,
     called w1 (CallReply (reply_token event) error_reply)).
Proof.
  intros Hmsg Hapi Hprofile w1.
  assert (process_message_event unicode_lower env cfg event service w
          = (Return (Some error_reply), w1)) as Hrun.
  { unfold process_message_event. run_monad.
    now rewrite Hmsg, Hapi, Hprofile. }
  split; [exact Hrun|].
  now rewrite handle_message_unfold, Hrun.
Qed.

Lemma profile_failure_is_answered_witness :
  let e := CollaboratorError (py "LineBotApiError") in
  let w1 := {| calls := [CallGetProfile (py "U1")];
               logs := [LogError (MsgProcessingError e)] |} in
  process_message_event Scenario.identity_lower Scenario.stranger
    Scenario.configured (Scenario.text_event (py "hello"))
    (TranslationService Scenario.stranger Scenario.configured) initial
  = (Return (Some error_reply), w1) /\
  handle_message Scenario.identity_lower Scenario.stranger
    Scenario.configured
    (TranslationService Scenario.stranger Scenario.configured)
    (Scenario.text_event (py "hello")) initial
  = (Return tt, called w1 (CallReply (py "r1") error_reply)).
Proof.
  intros e w1.
  apply (@profile_failure_is_answered Scenario.identity_lower
           Scenario.stranger Scenario.configured
           (Scenario.text_event (py "hello"))
           (TranslationService Scenario.stranger Scenario.configured)
           (py "hello") (MkLineBotApi (py "token")) e initial); reflexivity.
Defined.

(** X5: on a text message, once the profile is known, the translation
    service is either not asked at all, and there is no reply, or asked
    exactly once, for a non-empty trimmed text and one of the pairs
    [en]/[ja] and [ja]/[en]; what it returns goes into the reply, and what
    it raises becomes the fixed error reply. *)
Theorem translation_is_asked_at_most_once
    (unicode_lower : pystr -> nat -> N -> pystr) (env : collaborators)
    (cfg : config) (event : MessageEvent) (service : TranslationService_t)
    (text name : pystr) (api : LineBotApi) (w : world) :
  message event = TextMessage text ->
  line_bot_api cfg = Some api ->
  get_profile env (calls w) (user_id event) = Return name ->
  let w1 := called w (CallGetProfile (user_id event)) in
  process_message_event unicode_lower env cfg event service w
  = (Return None, w1)
  \/
  exists remainder source_lang target_lang,
    remainder <> [] /\ strip remainder = remainder /\
    language_pair source_lang target_lang /\
    process_message_event unicode_lower env cfg event service w
    = match translate_text_of service remainder source_lang target_lang
              (logged w1 (LogInfo (MsgTranslating source_lang target_lang
                                                  remainder))) with
      | (Return translated_text, w') =>
          (Return (Some (compose_reply name source_lang target_lang
                                       translated_text)), w')
      | (Raise e, w') =>
          (Return (Some error_reply), logged w' (LogError (MsgProcessingError e)))
      end.
Proof.
  intros Hmsg Hapi Hprofile w1.
  destruct (resolve_trigger unicode_lower (strip text))
    as [[[remainder source_lang] target_lang]|] eqn:Htrigger.
  - destruct (truthy remainder) eqn:Htext.
    + right. exists remainder, source_lang, target_lang.
      destruct (resolve_trigger_yields _ _ Htrigger) as [Htrim Hpair].
      repeat split; trivial.
      * intros ->. discriminate.
      * eapply process_message_event_triggered; eassumption.
    + left. eapply process_message_event_idle; eauto.
      now rewrite Htrigger.
  - left. eapply process_message_event_idle; eauto.
    now rewrite Htrigger.
Qed.

Lemma translation_is_asked_at_most_once_witness :
  let env := Scenario.bob [] (Return (Scenario.model_response (py "Hello"))) in
  let event := Scenario.text_event (py "#j2e " ++ Scenario.konnichiwa) in
  let service := TranslationService env Scenario.configured in
  let w1 := called initial (CallGetProfile (py "U1")) in
  process_message_event Scenario.identity_lower env Scenario.configured
                        event service initial
  = (Return None, w1)
  \/
  exists remainder source_lang target_lang,
    remainder <> [] /\ strip remainder = remainder /\
    language_pair source_lang target_lang /\
    process_message_event Scenario.identity_lower env Scenario.configured
                          event service initial
    = match translate_text_of service remainder source_lang target_lang
              (logged w1 (LogInfo (MsgTranslating source_lang target_lang
                                                  remainder))) with
      | (Return translated_text, w') =>
          (Return (Some (compose_reply (py "Bob") source_lang target_lang
                                       translated_text)), w')
      | (Raise e, w') =>
          (Return (Some error_reply), logged w' (LogError (MsgProcessingError e)))
      end.
Proof.
  intros env event service w1.
  apply (@translation_is_asked_at_most_once Scenario.identity_lower env
           Scenario.configured event service
           (py "#j2e " ++ Scenario.konnichiwa) (py "Bob")
           (MkLineBotApi (py "token")) initial); reflexivity.
Defined.

(** X6: [process_message_event] never raises, whatever the event, the
    collaborators and the translation service do, and the reply it returns
    is never the empty string, so that [handle_message] sends every reply
    it is given. *)
Theorem process_message_event_replies
    (unicode_lower : pystr -> nat -> N -> pystr) (env : collaborators)
    (cfg : config) (event : MessageEvent) (service : TranslationService_t)
    (w : world) :
  exists r w',
    process_message_event unicode_lower env cfg event service w
    = (Return r, w') /\
    r <> Some [].
Proof.
  unfold process_message_event. run_monad.
  destruct (message event) as [text|];
    [|eexists; eexists; split; [reflexivity | discriminate]].
  destruct (line_bot_api cfg) as [api|];
    [|eexists; eexists; split; [reflexivity | discriminate]].
  destruct (get_profile env (calls w) (user_id event)) as [name|e];
    [|eexists; eexists; split; [reflexivity | discriminate]].
  destruct (resolve_trigger unicode_lower (strip text))
    as [[[remainder source_lang] target_lang]|];
    [|eexists; eexists; split; [reflexivity | discriminate]].
  destruct (truthy remainder);
    [|eexists; eexists; split; [reflexivity | discriminate]].
  destruct (translate_text_of service _ _ _ _) as [[tr|e] w'];
    eexists; eexists; (split; [reflexivity | discriminate]).
Qed.

(** ** More on the translation client *)

(** [translate_text] in one equation: what the endpoint delivers decides
    the result. *)
Lemma translate_text_run
    (env : collaborators) (cfg : config)
    (text source_lang target_lang : pystr) (w : world) :
  translate_text env cfg text source_lang target_lang w
  = match delivered env cfg (calls w)
                    (request_body (prompt_for text target_lang)) with
    | Return translated_text =>
        (Return (Some translated_text),
         called w (model_request cfg
                     (request_body (prompt_for text target_lang))))
    | Raise e =>
        (Return None,
         logged (called w (model_request cfg
                             (request_body (prompt_for text target_lang))))
                (LogError (MsgTranslationFailed e)))
    end.
Proof.
  unfold translate_text, delivered, text_at_path. run_monad.
  destruct (invoke_model env _ _ _ _) as [[raw|e]|e];
    cbn [and_then]; try reflexivity.
  destruct (json_loads env raw) as [j|e]; cbn [and_then]; try reflexivity.
  destruct (getitem j _) as [output|e]; cbn [and_then]; try reflexivity.
  destruct (getitem output _) as [msg|e]; cbn [and_then]; try reflexivity.
  destruct (getitem msg _) as [content|e]; cbn [and_then]; try reflexivity.
  destruct (getitem0 content) as [first|e]; cbn [and_then]; try reflexivity.
  destruct (getitem first _) as [text_field|e]; cbn [and_then];
    try reflexivity.
  now destruct (strip_method text_field).
Qed.

(** X7: how a response of the wrong shape fails.  For a decoded response
    [translate_text] returns [None] and logs [TypeError] when the response
    is not an object, [KeyError] when it has no [output], [IndexError] when
    [content] is an empty list, and [AttributeError] when the value at the
    path is not a string. *)
Theorem malformed_response_is_none
    (env : collaborators) (cfg : config)
    (text source_lang target_lang : pystr) (raw : bytes) (j : json)
    (w : world) :
  let body := request_body (prompt_for text target_lang) in
  let failed e :=
    translate_text env cfg text source_lang target_lang w
    = (Return None,
       logged (called w (model_request cfg body))
              (LogError (MsgTranslationFailed e))) in
  invoke_model env (calls w) (BEDROCK_MODEL_ID cfg) (dumps body)
               (py "application/json") = Return (Return raw) ->
  json_loads env raw = Return j ->
  ((forall fields, j <> JObj fields) -> failed TypeError) /\
  (forall fields,
      j = JObj fields -> assoc (py "output") fields = None ->
      failed KeyError) /\
  (forall output msg,
      getitem j (py "output") = Return output ->
      getitem output (py "message") = Return msg ->
      getitem msg (py "content") = Return (JArr []) ->
      failed IndexError) /\
  (forall v,
      text_at_path j = Return v -> (forall t, v <> JStr t) ->
      failed AttributeError).
Proof.
  intros body failed Hinvoke Hloads. subst failed. cbv beta.
  rewrite translate_text_run. fold body. unfold delivered.
  rewrite Hinvoke. cbn [and_then]. rewrite Hloads. cbn [and_then].
  repeat split.
  - intros Hshape. unfold text_at_path.
    destruct j; try reflexivity. now destruct (Hshape fields).
  - intros fields -> Hnone. unfold text_at_path, getitem at 1.
    now rewrite Hnone.
  - intros output msg Houtput Hmsg Hcontent. unfold text_at_path.
    now rewrite Houtput; cbn [and_then]; rewrite Hmsg; cbn [and_then];
      rewrite Hcontent.
  - intros v Hv Hshape. rewrite Hv. cbn [and_then].
    destruct v; try reflexivity. now destruct (Hshape s).
Qed.

Lemma malformed_response_is_none_witness :
  let env := Scenario.bob [] (Return (JObj [(py "message", JNull)])) in
  translate_text env Scenario.configured (py "Hello") (py "en") (py "ja")
                 initial
  = (Return None,
     logged (called initial
               (model_request Scenario.configured
                  (request_body (prompt_for (py "Hello") (py "ja")))))
            (LogError (MsgTranslationFailed KeyError))).
Proof.
  intros env.
  apply (proj1 (proj2
           (@malformed_response_is_none env Scenario.configured
              (py "Hello") (py "en") (py "ja") []
              (JObj [(py "message", JNull)]) initial eq_refl eq_refl))
           [(py "message", JNull)]); reflexivity.
Defined.

(** ** More on the entry point *)

Lemma compose_reply_cons
    (name source_lang target_lang : pystr) (translated : option pystr) :
  compose_reply name source_lang target_lang translated
  = 77%N :: (py "essage from @" ++ name ++ py ": (" ++ source_lang
               ++ py " -> " ++ target_lang ++ py "):" ++ NL
               ++ py "--------------------" ++ NL
               ++ format_value translated).
Proof. reflexivity. Qed.

(** [handler.handle] on a payload without text message events: the
    callback is not used. *)
Lemma handle_without_text
    (env : collaborators) (callback : MessageEvent -> M unit)
    (body signature : json) (events : list webhook_event) (w : world) :
  parse env (calls w) body signature = Return events ->
  forallb (fun ev => negb (is_text_event ev)) events = true ->
  handle env body signature callback w
  = (Return tt, called w (CallParse body signature)).
Proof.
  intros Hparse Hnone. unfold handle, bind at 1, perform. rewrite Hparse.
  clear Hparse. generalize (called w (CallParse body signature)) as w1.
  induction events as [|ev events IH]; intros w1; [reflexivity|].
  simpl in Hnone. apply andb_true_iff in Hnone as [Hev Hnone].
  cbn [for_each]. unfold bind at 1.
  destruct ev as [e|]; [|now apply IH].
  unfold is_text_event in Hev.
  destruct (message e); [discriminate | now apply IH].
Qed.

(** X8: with the LINE configuration present, an event without
    [headers], without [x-line-signature] among them, or without
    [body] makes [lambda_handler] raise the failed lookup's exception,
    after logging the event and before any collaborator is called. *)
Theorem malformed_event_is_raised
    (unicode_lower : pystr -> nat -> N -> pystr) (env : collaborators)
    (cfg : config) (event : json) (api : LineBotApi) (h : WebhookHandler)
    (e : exn) (w : world) :
  line_bot_api cfg = Some api ->
  handler cfg = Some h ->
  getitem event (py "headers") = Raise e \/
  (exists headers,
      getitem event (py "headers") = Return headers /\
      (getitem headers (py "x-line-signature") = Raise e \/
       exists signature,
         getitem headers (py "x-line-signature") = Return signature /\
         getitem event (py "body") = Raise e)) ->
  lambda_handler unicode_lower env cfg event w
  = (Raise e, logged w (LogInfo (MsgEvent event))).
Proof.
  intros Hapi Hh Hlookup. unfold lambda_handler. run_monad.
  rewrite Hapi, Hh.
  destruct Hlookup as [-> | [headers [-> [-> | [signature [-> Hbody]]]]]];
    try reflexivity.
  now rewrite Hbody.
Qed.

Lemma malformed_event_is_raised_witness :
  lambda_handler Scenario.identity_lower (Scenario.bob [] (Return JNull))
                 Scenario.configured Cases.bodiless_event initial
  = (Raise KeyError, logged initial (LogInfo (MsgEvent Cases.bodiless_event))).
Proof.
  apply (@malformed_event_is_raised Scenario.identity_lower
           (Scenario.bob [] (Return JNull)) Scenario.configured
           Cases.bodiless_event (MkLineBotApi (py "token"))
           (MkWebhookHandler (py "secret")) KeyError initial).
  - reflexivity.
  - reflexivity.
  - right. exists (JObj [(py "x-line-signature", JStr (py "c2ln"))]).
    split; [reflexivity|]. right. exists (JStr (py "c2ln")).
    split; reflexivity.
Defined.

(** X9: a correctly signed payload without text message events (none at
    all, or only stickers, images, follows and the like) is answered with
    status 200 and body ["OK"]; the parser is the only collaborator
    called. *)
Theorem payload_without_text_is_200
    (unicode_lower : pystr -> nat -> N -> pystr) (env : collaborators)
    (cfg : config) (event headers signature body : json)
    (api : LineBotApi) (h : WebhookHandler)
    (events : list webhook_event) (w : world) :
  line_bot_api cfg = Some api ->
  handler cfg = Some h ->
  getitem event (py "headers") = Return headers ->
  getitem headers (py "x-line-signature") = Return signature ->
  getitem event (py "body") = Return body ->
  parse env (calls w) body signature = Return events ->
  forallb (fun ev => negb (is_text_event ev)) events = true ->
  lambda_handler unicode_lower env cfg event w
  = (Return (200%N, dumps (JStr (py "OK"))),
     called (logged w (LogInfo (MsgEvent event)))
            (CallParse body signature)).
Proof.
  intros Hapi Hh Hheaders Hsignature Hbody Hparse Hnone.
  erewrite lambda_handler_configured by eassumption.
  now rewrite (@handle_without_text env _ body signature events
                 (logged w (LogInfo (MsgEvent event))) Hparse Hnone).
Qed.

Lemma payload_without_text_is_200_witness :
  lambda_handler Scenario.identity_lower
    (Scenario.bob [EvOther; EvMessage Cases.sticker_event] (Return JNull))
    Scenario.configured Scenario.signed_event initial
  = (Return (200%N, dumps (JStr (py "OK"))),
     called (logged initial (LogInfo (MsgEvent Scenario.signed_event)))
            (CallParse (JStr (py "{}")) (JStr (py "c2ln")))).
Proof.
  apply (@payload_without_text_is_200 Scenario.identity_lower
           (Scenario.bob [EvOther; EvMessage Cases.sticker_event]
                         (Return JNull))
           Scenario.configured Scenario.signed_event
           (JObj [(py "x-line-signature", JStr (py "c2ln"))])
           (JStr (py "c2ln")) (JStr (py "{}"))
           (MkLineBotApi (py "token")) (MkWebhookHandler (py "secret"))
           [EvOther; EvMessage Cases.sticker_event] initial); reflexivity.
Defined.

(** [handler.handle] on a payload that starts with a text message
    event. *)
Lemma handle_text_first
    (env : collaborators) (callback : MessageEvent -> M unit)
    (body signature : json) (ev : MessageEvent)
    (rest : list webhook_event) (w : world) :
  parse env (calls w) body signature = Return (EvMessage ev :: rest) ->
  is_text_event (EvMessage ev) = true ->
  handle env body signature callback w
  = match callback ev (called w (CallParse body signature)) with
    | (Return _, w') =>
        for_each rest
          (fun ev =>
             match ev with
             | EvMessage e =>
                 match message e with
                 | TextMessage _ => callback e
                 | OtherMessage => ret tt
                 end
             | EvOther => ret tt
             end) w'
    | (Raise e, w') => (Raise e, w')
    end.
Proof.
  intros Hparse Htext. unfold handle, bind at 1, perform. rewrite Hparse.
  cbn [for_each]. unfold bind at 1. unfold is_text_event in Htext.
  destruct (message ev); [reflexivity | discriminate].
Qed.

(** X10: one text message with a trigger, from the request to the
    response, when the sender's profile is found.  The handler calls, in
    this order and nothing else, the parser, the profile lookup, the model
    and the reply send; the reply carries what the model delivered, or
    [None] when the translation failed.  It returns status 200 when the
    reply is sent; when the send raises, the exception is raised out, or
    answered with 502 if it is an [InvalidSignatureError]. *)
Theorem triggered_message_end_to_end
    (unicode_lower : pystr -> nat -> N -> pystr) (env : collaborators)
    (cfg : config) (event headers signature body : json)
    (api : LineBotApi) (h : WebhookHandler) (ev : MessageEvent)
    (text name remainder source_lang target_lang : pystr) (w : world) :
  let request :=
    model_request cfg (request_body (prompt_for remainder target_lang)) in
  let history :=
    calls w ++ [CallParse body signature; CallGetProfile (user_id ev)] in
  let reply :=
    compose_reply name source_lang target_lang
      match delivered env cfg history
                      (request_body (prompt_for remainder target_lang)) with
      | Return translated_text => Some translated_text
      | Raise _ => None
      end in
  line_bot_api cfg = Some api ->
  handler cfg = Some h ->
  getitem event (py "headers") = Return headers ->
  getitem headers (py "x-line-signature") = Return signature ->
  getitem event (py "body") = Return body ->
  parse env (calls w) body signature = Return [EvMessage ev] ->
  message ev = TextMessage text ->
  get_profile env (calls w ++ [CallParse body signature]) (user_id ev)
    = Return name ->
  resolve_trigger unicode_lower (strip text)
    = Some (remainder, source_lang, target_lang) ->
  truthy remainder = true ->
  calls (snd (lambda_handler unicode_lower env cfg event w))
  = history ++ [request; CallReply (reply_token ev) reply] /\
  fst (lambda_handler unicode_lower env cfg event w)
  = match reply_message env (history ++ [request]) (reply_token ev) reply with
    | Return _ => Return (200%N, dumps (JStr (py "OK")))
    | Raise e =>
        if is_invalid_signature e
        then Return (502%N, dumps (JStr invalid_signature_message))
        else Raise e
    end.
Proof.
  intros request history reply Hapi Hh Hheaders Hsignature Hbody Hparse
         Hmsg Hprofile Htrigger Htext.
  assert (history
          = (calls w ++ [CallParse body signature])
              ++ [CallGetProfile (user_id ev)]) as Hhistory
    by (unfold history; now rewrite <- app_assoc).
  erewrite lambda_handler_configured by eassumption.
  erewrite handle_text_first;
    [|exact Hparse | unfold is_text_event; now rewrite Hmsg].
  rewrite handle_message_unfold.
  erewrite process_message_event_triggered;
    [|exact Hmsg | exact Hapi | exact Hprofile | exact Htrigger | exact Htext].
  cbn [translate_text_of TranslationService]. rewrite translate_text_run.
  cbn [calls logged called]. rewrite <- Hhistory.
  subst reply. fold request.
  destruct (delivered env cfg history _) as [translated|e];
    rewrite compose_reply_cons; cbn [calls logged called];
    rewrite <- Hhistory;
    (destruct (reply_message env (history ++ [request]) (reply_token ev) _)
       as [u|e'];
     [|destruct (is_invalid_signature e')]);
    cbn [for_each ret fst snd calls called logged];
    rewrite <- Hhistory; (split; [now rewrite <- app_assoc | reflexivity]).
Qed.

Lemma triggered_message_end_to_end_witness :
  let text := py "#j2e " ++ Scenario.konnichiwa in
  let env := Scenario.bob [EvMessage (Scenario.text_event text)]
                          (Return (Scenario.model_response (py "Hello"))) in
  calls (snd (lambda_handler Scenario.identity_lower env Scenario.configured
                             Scenario.signed_event initial))
  = [CallParse (JStr (py "{}")) (JStr (py "c2ln"));
     CallGetProfile (py "U1");
     model_request Scenario.configured
       (request_body (prompt_for Scenario.konnichiwa (py "en")));
     CallReply (py "r1")
       (py "Message from @Bob: (ja -> en):" ++ NL
          ++ py "--------------------" ++ NL ++ py "Hello")] /\
  fst (lambda_handler Scenario.identity_lower env Scenario.configured
                      Scenario.signed_event initial)
  = Return (200%N, dumps (JStr (py "OK"))).
Proof.
  intros text env.
  apply (@triggered_message_end_to_end Scenario.identity_lower env
           Scenario.configured Scenario.signed_event
           (JObj [(py "x-line-signature", JStr (py "c2ln"))])
           (JStr (py "c2ln")) (JStr (py "{}"))
           (MkLineBotApi (py "token")) (MkWebhookHandler (py "secret"))
           (Scenario.text_event text) text (py "Bob") Scenario.konnichiwa
           (py "ja") (py "en") initial); reflexivity.
Defined.

Lemma for_each_app {A} (f : A -> M unit) (l1 l2 : list A) (w : world) :
  for_each (l1 ++ l2) f w
  = match for_each l1 f w with
    | (Return _, w1) => for_each l2 f w1
    | (Raise e, w1) => (Raise e, w1)
    end.
Proof.
  revert w. induction l1 as [|x l1 IH]; intros w; [reflexivity|].
  simpl. unfold bind. destruct (f x w) as [[u|e] w1]; [apply IH | reflexivity].
Qed.

(** [handler.handle] in one equation. *)
Lemma handle_run
    (env : collaborators) (callback : MessageEvent -> M unit)
    (body signature : json) (w : world) :
  handle env body signature callback w
  = match parse env (calls w) body signature with
    | Return events =>
        for_each events (dispatch callback)
                 (called w (CallParse body signature))
    | Raise e => (Raise e, called w (CallParse body signature))
    end.
Proof.
  unfold handle, bind, perform.
  now destruct (parse env (calls w) body signature).
Qed.

(** X11: a reply that cannot be sent stops the invocation.  When the
    events before it in the payload have been handled and
    [reply_message] raises for a text message event, [lambda_handler]
    raises the same exception instead of returning a response, and the
    events after it in the payload are not looked at. *)
Theorem reply_failure_is_raised
    (unicode_lower : pystr -> nat -> N -> pystr) (env : collaborators)
    (cfg : config) (event headers signature body : json)
    (api : LineBotApi) (h : WebhookHandler) (ev : MessageEvent)
    (before rest : list webhook_event) (c : N) (reply : pystr) (e : exn)
    (w w1 w2 : world) :
  line_bot_api cfg = Some api ->
  handler cfg = Some h ->
  getitem event (py "headers") = Return headers ->
  getitem headers (py "x-line-signature") = Return signature ->
  getitem event (py "body") = Return body ->
  parse env (calls w) body signature
    = Return (before ++ EvMessage ev :: rest) ->
  for_each before
    (dispatch (handle_message unicode_lower env cfg
                              (TranslationService env cfg)))
    (called (logged w (LogInfo (MsgEvent event))) (CallParse body signature))
    = (Return tt, w1) ->
  is_text_event (EvMessage ev) = true ->
  process_message_event unicode_lower env cfg ev (TranslationService env cfg)
    w1
    = (Return (Some (c :: reply)), w2) ->
  reply_message env (calls w2) (reply_token ev) (c :: reply) = Raise e ->
  is_invalid_signature e = false ->
  lambda_handler unicode_lower env cfg event w
  = (Raise e, called w2 (CallReply (reply_token ev) (c :: reply))).
Proof.
  intros Hapi Hh Hheaders Hsignature Hbody Hparse Hbefore Htext Hrun Hreply
         Hother.
  erewrite lambda_handler_configured by eassumption.
  rewrite handle_run. cbn [calls logged]. rewrite Hparse, for_each_app.
  rewrite Hbefore. cbn [for_each]. unfold bind at 1.
  unfold is_text_event in Htext. unfold dispatch at 1.
  destruct (message ev); [|discriminate].
  rewrite handle_message_unfold, Hrun, Hreply. now rewrite Hother.
Qed.

Lemma reply_failure_is_raised_witness :
  let env :=
    Cases.expired [EvMessage Cases.sticker_event;
                   EvMessage (Scenario.text_event (py "Hello #E2J"));
                   EvMessage (Scenario.text_event (py "#e2j again"))] in
  let reply := py "Message from @Bob: (en -> ja):" ++ NL
                 ++ py "--------------------" ++ NL ++ py "Hello" in
  lambda_handler Scenario.identity_lower env Scenario.configured
                 Scenario.signed_event initial
  = (Raise (CollaboratorError (py "LineBotApiError")),
     {| calls :=
          [CallParse (JStr (py "{}")) (JStr (py "c2ln"));
           CallGetProfile (py "U1");
           model_request Scenario.configured
             (request_body (prompt_for (py "Hello") (py "ja")));
           CallReply (py "r1") reply];
        logs :=
          [LogInfo (MsgEvent Scenario.signed_event);
           LogInfo (MsgTranslating (py "en") (py "ja") (py "Hello"))] |}).
Proof.
  intros env reply.
  apply (@reply_failure_is_raised Scenario.identity_lower env
           Scenario.configured Scenario.signed_event
           (JObj [(py "x-line-signature", JStr (py "c2ln"))])
           (JStr (py "c2ln")) (JStr (py "{}"))
           (MkLineBotApi (py "token")) (MkWebhookHandler (py "secret"))
           (Scenario.text_event (py "Hello #E2J"))
           [EvMessage Cases.sticker_event]
           [EvMessage (Scenario.text_event (py "#e2j again"))]
           77%N (List.tl reply)
           (CollaboratorError (py "LineBotApiError")) initial
           {| calls := [CallParse (JStr (py "{}")) (JStr (py "c2ln"))];
              logs := [LogInfo (MsgEvent Scenario.signed_event)] |}
           {| calls :=
                [CallParse (JStr (py "{}")) (JStr (py "c2ln"));
                 CallGetProfile (py "U1");
                 model_request Scenario.configured
                   (request_body (prompt_for (py "Hello") (py "ja")))];
              logs :=
                [LogInfo (MsgEvent Scenario.signed_event);
                 LogInfo (MsgTranslating (py "en") (py "ja") (py "Hello"))] |});
    reflexivity.
Defined.

(** ** What an invocation adds to the world *)

Section Growth.

Lemma extends_refl (w : world) : extends w w.
Proof. split; exists []; now rewrite app_nil_r. Qed.

Lemma extends_trans (w1 w2 w3 : world) :
  extends w1 w2 -> extends w2 w3 -> extends w1 w3.
Proof.
  intros [[cs1 Hc1] [ls1 Hl1]] [[cs2 Hc2] [ls2 Hl2]]. split.
  - exists (cs1 ++ cs2). now rewrite Hc2, Hc1, app_assoc.
  - exists (ls1 ++ ls2). now rewrite Hl2, Hl1, app_assoc.
Qed.

Lemma extends_logged (w : world) (l : log_entry) : extends w (logged w l).
Proof. split; [exists []; simpl; now rewrite app_nil_r | now exists [l]]. Qed.

Lemma extends_called (w : world) (c : call) : extends w (called w c).
Proof. split; [now exists [c] | exists []; simpl; now rewrite app_nil_r]. Qed.

Lemma grows_ret {A} (a : A) : grows (ret a).
Proof. intros w. apply extends_refl. Qed.

Lemma grows_lift {A} (o : outcome A) : grows (lift o).
Proof. intros w. apply extends_refl. Qed.

Lemma grows_log (l : log_entry) : grows (log l).
Proof. intros w. apply extends_logged. Qed.

Lemma grows_perform {A} (c : call) (answer : list call -> outcome A) :
  grows (perform c answer).
Proof. intros w. apply extends_called. Qed.

Lemma grows_bind {A B} (m : M A) (k : A -> M B) :
  grows m -> (forall a, grows (k a)) -> grows (bind m k).
Proof.
  intros Hm Hk w. unfold bind. specialize (Hm w).
  destruct (m w) as [[a|e] w1]; [|exact Hm].
  eapply extends_trans; [exact Hm | apply Hk].
Qed.

Lemma grows_try_except {A} (m : M A) (E : exn -> bool) (h : exn -> M A) :
  grows m -> (forall e, grows (h e)) -> grows (try_except m E h).
Proof.
  intros Hm Hh w. unfold try_except. specialize (Hm w).
  destruct (m w) as [[a|e] w1]; [exact Hm|].
  destruct (E e); [|exact Hm].
  eapply extends_trans; [exact Hm | apply Hh].
Qed.

Lemma grows_for_each {A} (f : A -> M unit) (l : list A) :
  (forall x, grows (f x)) -> grows (for_each l f).
Proof.
  intros Hf. induction l as [|x l IH]; simpl.
  - apply grows_ret.
  - apply grows_bind; [apply Hf | intros _; exact IH].
Qed.

Variable unicode_lower : pystr -> nat -> N -> pystr.
Variable env : collaborators.
Variable cfg : config.

Lemma grows_translate_text (text source_lang target_lang : pystr) :
  grows (translate_text env cfg text source_lang target_lang).
Proof.
  intros w. rewrite translate_text_run.
  destruct (delivered env cfg (calls w) _); simpl.
  - apply extends_called.
  - eapply extends_trans; [apply extends_called | apply extends_logged].
Qed.

Lemma grows_process_message_event (event : MessageEvent) :
  grows (process_message_event unicode_lower env cfg event
                               (TranslationService env cfg)).
Proof.
  unfold process_message_event. apply grows_try_except.
  - destruct (message event) as [text|]; [|apply grows_ret].
    destruct (line_bot_api cfg) as [api|].
    + apply grows_bind; [apply grows_perform|]. intros name.
      destruct (resolve_trigger unicode_lower (strip text))
        as [[[remainder source_lang] target_lang]|]; [|apply grows_ret].
      destruct (truthy remainder); [|apply grows_ret].
      apply grows_bind; [apply grows_log|]. intros _.
      apply grows_bind; [apply grows_translate_text|]. intros translated.
      apply grows_ret.
    + apply grows_bind; [apply grows_log | intros _; apply grows_ret].
  - intros e. apply grows_bind; [apply grows_log | intros _; apply grows_ret].
Qed.

Lemma grows_handle_message (event : MessageEvent) :
  grows (handle_message unicode_lower env cfg (TranslationService env cfg)
                        event).
Proof.
  unfold handle_message.
  apply grows_bind; [apply grows_process_message_event|].
  intros [text|]; [|apply grows_ret].
  destruct (truthy text); [apply grows_perform | apply grows_ret].
Qed.

(** Whatever [handler.handle] does comes after its call of the parser. *)
Lemma handle_after_parse (body signature : json) (w : world) :
  extends (called w (CallParse body signature))
          (snd (handle env body signature
                       (handle_message unicode_lower env cfg
                                       (TranslationService env cfg)) w)).
Proof.
  unfold handle, bind at 1, perform.
  destruct (parse env (calls w) body signature) as [events|e];
    [|apply extends_refl].
  apply grows_for_each. intros [e|]; [|apply grows_ret].
  destruct (message e); [apply grows_handle_message | apply grows_ret].
Qed.

End Growth.

(** X12: every invocation first logs the event it was given.  If it calls
    a collaborator at all, its first call is the parser's, on the body and
    the signature of the event: no profile is looked up, no model invoked
    and no reply sent before the signature has been checked. *)
Theorem parser_is_called_first
    (unicode_lower : pystr -> nat -> N -> pystr) (env : collaborators)
    (cfg : config) (event : json) (w : world) :
  let w' := snd (lambda_handler unicode_lower env cfg event w) in
  (exists ls, logs w' = logs w ++ LogInfo (MsgEvent event) :: ls) /\
  (calls w' = calls w \/
   exists headers signature body rest,
     getitem event (py "headers") = Return headers /\
     getitem headers (py "x-line-signature") = Return signature /\
     getitem event (py "body") = Return body /\
     calls w' = calls w ++ CallParse body signature :: rest).
Proof.
  intros w'. subst w'.
  destruct (line_bot_api cfg) as [api|] eqn:Hapi;
    [destruct (handler cfg) as [h|] eqn:Hh|];
    try (rewrite lambda_handler_unconfigured by auto; simpl;
         split; [eexists; now rewrite <- app_assoc | now left]).
  destruct (getitem event (py "headers")) as [headers|e] eqn:Hheaders;
    [destruct (getitem headers (py "x-line-signature")) as [signature|e]
       eqn:Hsignature;
     [destruct (getitem event (py "body")) as [body|e] eqn:Hbody|]|];
    try (unfold lambda_handler; run_monad;
         rewrite Hapi, Hh, Hheaders, ?Hsignature, ?Hbody; simpl;
         split; [now exists [] | now left]).
  erewrite lambda_handler_configured by eassumption.
  pose proof (handle_after_parse unicode_lower env cfg body signature
                (logged w (LogInfo (MsgEvent event))))
    as [[cs Hcalls] [ls Hlogs]].
  simpl in Hcalls, Hlogs.
  destruct (handle _ _ _ _ _) as [[u|e] w1]; simpl in *;
    [|destruct (is_invalid_signature e); simpl];
    (split;
     [eexists; rewrite Hlogs, <- !app_assoc; reflexivity
     |right; exists headers, signature, body, cs;
      repeat split; trivial; rewrite Hcalls, <- !app_assoc; reflexivity]).
Qed.

(** The two runs of a text message whose sender is known. *)
Lemma process_message_event_runs
    (unicode_lower : pystr -> nat -> N -> pystr) (env : collaborators)
    (cfg : config) (event : MessageEvent) (service : TranslationService_t)
    (text name : pystr) (api : LineBotApi) (w : world) :
  message event = TextMessage text ->
  line_bot_api cfg = Some api ->
  get_profile env (calls w) (user_id event) = Return name ->
  process_message_event unicode_lower env cfg event service w
  = (Return None, called w (CallGetProfile (user_id event)))
  \/
  exists remainder source_lang target_lang,
    process_message_event unicode_lower env cfg event service w
    = match translate_text_of service remainder source_lang target_lang
              (logged (called w (CallGetProfile (user_id event)))
                      (LogInfo (MsgTranslating source_lang target_lang
                                               remainder))) with
      | (Return translated_text, w') =>
          (Return (Some (compose_reply name source_lang target_lang
                                       translated_text)), w')
      | (Raise e, w') =>
          (Return (Some error_reply), logged w' (LogError (MsgProcessingError e)))
      end.
Proof.
  intros Hmsg Hapi Hprofile.
  destruct (resolve_trigger unicode_lower (strip text))
    as [[[remainder source_lang] target_lang]|] eqn:Htrigger.
  - destruct (truthy remainder) eqn:Htext.
    + right. exists remainder, source_lang, target_lang.
      eapply process_message_event_triggered; eassumption.
    + left. eapply process_message_event_idle; eauto.
      now rewrite Htrigger.
  - left. eapply process_message_event_idle; eauto.
    now rewrite Htrigger.
Qed.

(** X13: what one text or other message event can cost.  With the client
    configured, [handle_message] adds to the calls made so far nothing,
    or the profile lookup alone, or the lookup and one reply, or the
    lookup, one model call and one reply; the reply goes to the event's own
    reply token. *)
Theorem calls_per_message
    (unicode_lower : pystr -> nat -> N -> pystr) (env : collaborators)
    (cfg : config) (event : MessageEvent) (api : LineBotApi) (w : world) :
  line_bot_api cfg = Some api ->
  let w' := snd (handle_message unicode_lower env cfg
                                (TranslationService env cfg) event w) in
  let lookup := CallGetProfile (user_id event) in
  calls w' = calls w \/
  calls w' = calls w ++ [lookup] \/
  (exists text,
      calls w' = calls w ++ [lookup; CallReply (reply_token event) text]) \/
  (exists body text,
      calls w' = calls w ++ [lookup; model_request cfg body;
                             CallReply (reply_token event) text]).
Proof.
  intros Hapi w' lookup. subst w' lookup. rewrite handle_message_unfold.
  destruct (message event) as [text|] eqn:Hmsg.
  - destruct (get_profile env (calls w) (user_id event)) as [name|e]
      eqn:Hprofile.
    + destruct (@process_message_event_runs unicode_lower env cfg
                  event (TranslationService env cfg) text name api w
                  Hmsg Hapi Hprofile)
        as [-> | [remainder [source_lang [target_lang ->]]]].
      * right. left. reflexivity.
      * cbn [translate_text_of TranslationService].
        rewrite translate_text_run.
        right. right. right.
        exists (request_body (prompt_for remainder target_lang)).
        destruct (delivered env cfg _ _); rewrite compose_reply_cons;
          eexists; cbn [snd calls called logged];
          rewrite <- !app_assoc; reflexivity.
    + right. right. left. exists error_reply.
      unfold process_message_event. run_monad.
      rewrite Hmsg, Hapi, Hprofile. cbn. now rewrite <- app_assoc.
  - left. unfold process_message_event. run_monad. now rewrite Hmsg.
Qed.

Lemma calls_per_message_witness :
  let env := Scenario.bob [] (Return (Scenario.model_response (py "Hello"))) in
  let event := Scenario.text_event (py "#j2e " ++ Scenario.konnichiwa) in
  let w' := snd (handle_message Scenario.identity_lower env
                   Scenario.configured
                   (TranslationService env Scenario.configured) event
                   initial) in
  calls w' = [] \/
  calls w' = [CallGetProfile (py "U1")] \/
  (exists text,
      calls w' = [CallGetProfile (py "U1"); CallReply (py "r1") text]) \/
  (exists body text,
      calls w' = [CallGetProfile (py "U1");
                  model_request Scenario.configured body;
                  CallReply (py "r1") text]).
Proof.
  intros env event.
  apply (@calls_per_message Scenario.identity_lower env Scenario.configured
           event (MkLineBotApi (py "token")) initial).
  reflexivity.
Defined.
